(** * pterodactyl-api-wrapper: a shallow embedding of the admin client

    The repository is a JavaScript client for a control panel's REST API:
    - [request.js]: four helpers ([admin.getRequest], [admin.deleteRequest],
      [admin.patchRequest], [admin.postRequest]) that read the stored
      credentials, build the headers, issue one axios call and map the HTTP
      status to a resolved or rejected promise;
    - the servers module: thirteen endpoint functions, each a promise
      executor that validates its arguments, builds a payload and calls one
      helper;
    - the index module: [cleanHost] and [setApiKey].

    JavaScript values are embedded as an inductive type, numbers as IEEE-754
    doubles ([spec_float]), [process.env] as a record of the two variables
    the code touches, a promise as a state that settles once, and the
    effects (HTTP calls, calls of [resolve]/[reject], console output) as a
    chronological trace threaded through a state monad. *)

From Stdlib Require Import ZArith List String Ascii Bool Lia DecimalString.
From Stdlib Require Import Floats.SpecFloat.
Import ListNotations.
Open Scope string_scope.

Set Warnings "-register-all".

(** ** JavaScript values *)

(** The plain-data fragment of the language: what JSON carries, plus
    [undefined].  Functions, symbols and bigints are not arguments the
    client is documented to take and are left out. *)
Inductive value : Type :=
| JUndefined
| JNull
| JBool (b : bool)
| JNum (n : spec_float)
| JStr (s : string)
| JArr (xs : list value)
| JObj (props : list (string * value)).

(** A double holding the integer [z]. *)
Definition num (z : Z) : spec_float := binary_normalize 53 1024 z 0 false.

Definition NaN : spec_float := S754_nan.

(** [typeof v] *)
Definition typeof (v : value) : string :=
  match v with
  | JUndefined => "undefined"
  | JNull => "object"
  | JBool _ => "boolean"
  | JNum _ => "number"
  | JStr _ => "string"
  | JArr _ => "object"
  | JObj _ => "object"
  end.

(** The abstract operation ToBoolean: which values are truthy. *)
Definition ToBoolean (v : value) : bool :=
  match v with
  | JUndefined => false
  | JNull => false
  | JBool b => b
  | JNum (S754_zero _) => false
  | JNum S754_nan => false
  | JNum _ => true
  | JStr s => negb (s =? "")
  | JArr _ => true
  | JObj _ => true
  end.

(** [Array.isArray(v)] *)
Definition Array_isArray (v : value) : bool :=
  match v with JArr _ => true | _ => false end.

(** [v === n] for a number [n]: only a number can be strictly equal to one,
    and numbers compare as IEEE doubles. *)
Definition strict_equals_num (v : value) (n : spec_float) : bool :=
  match v with JNum m => SFeqb m n | _ => false end.

(** Lookup in an object's own properties, in insertion order. *)
Fixpoint lookup (k : string) (props : list (string * value)) : option value :=
  match props with
  | [] => None
  | (k', v) :: rest => if k' =? k then Some v else lookup k rest
  end.

(** [o[k] = v] on a plain object: an existing key keeps its place, a new
    key goes last. *)
Fixpoint set_prop (k : string) (v : value) (props : list (string * value))
  : list (string * value) :=
  match props with
  | [] => [(k, v)]
  | (k', v') :: rest =>
      if k' =? k then (k', v) :: rest else (k', v') :: set_prop k v rest
  end.

(** [v.k] for the property names the client reads ([data], [attributes],
    [meta], [pagination], [length]; never an array index).  [None] is the
    TypeError of reading a property of [undefined] or [null]. *)
Definition get_prop (v : value) (k : string) : option value :=
  match v with
  | JUndefined | JNull => None
  | JObj props =>
      Some (match lookup k props with Some x => x | None => JUndefined end)
  | JArr xs =>
      Some (if k =? "length" then JNum (num (Z.of_nat (List.length xs)))
            else JUndefined)
  | JStr s =>
      Some (if k =? "length" then JNum (num (Z.of_nat (String.length s)))
            else JUndefined)
  | JBool _ | JNum _ => Some JUndefined
  end.

(** [s.includes(t)]: [t] occurs in [s]. *)
Fixpoint includes (s t : string) : bool :=
  if prefix t s then true
  else match s with
       | EmptyString => false
       | String _ rest => includes rest t
       end.

(** ** The world outside the repository *)

(** [process.env]: Node stores every assigned value as a string; a variable
    never assigned reads as [undefined]. *)
Record process_env : Type := mkEnv {
  ADMIN_HOST : option string;
  ADMIN_KEY : option string
}.

Definition read_env (x : option string) : value :=
  match x with Some s => JStr s | None => JUndefined end.

Inductive method : Type := GET | DELETE | PATCH | POST.

(** One axios call: [axios.<method>(url, body?, config)]. *)
Record request : Type := mkRequest {
  req_method : method;
  req_url : value;
  req_body : option value;
  req_config : value
}.

(** What axios hands to [.then]: the fields the client reads. *)
Record response : Type := mkResponse {
  status : Z;
  data : value
}.

(** What axios hands to [.catch]. *)
Record http_error : Type := mkError {
  message : string;
  err_status : value
}.

Inductive http_outcome : Type :=
| HttpResponse (r : response)
| HttpError (e : http_error).

(** The response object as a value, for comparisons on the object itself. *)
Definition response_value (r : response) : value :=
  JObj [("status", JNum (num (status r))); ("data", data r)].

(** The function of the repository that called axios. *)
Inductive call_site : Type :=
| admin_getRequest_site
| admin_deleteRequest_site
| admin_patchRequest_site
| admin_postRequest_site
| setApiKey_site.

Definition through_helper (c : call_site) : bool :=
  match c with setApiKey_site => false | _ => true end.

(** ** Promises *)

(** What a promise of the client is rejected with: a message string, or the
    TypeError thrown inside a [.then] handler and caught by [.catch]. *)
Inductive rejection : Type :=
| RMessage (s : string)
| RTypeError.

Inductive promise_state : Type :=
| Pending
| Resolved (v : value)
| Rejected (r : rejection).

(** A promise settles once: [resolve] and [reject] on a settled promise do
    nothing. *)
Definition settle (p new : promise_state) : promise_state :=
  match p with Pending => new | _ => p end.

(** What a helper of [request.js] settles its own promise with. *)
Inductive helper_outcome : Type :=
| HResolved (v : value)
| HRejected (msg : string).

(** ** Effects *)

Inductive event : Type :=
| EvHttp (site : call_site) (r : request)
| EvResolve (v : value)
| EvReject (r : rejection)
| EvConsole (s : string).

Record state : Type := mkState {
  env : process_env;
  promise : promise_state;
  trace : list event
}.

Definition M (A : Type) : Type := state -> A * state.

Definition ret {A} (a : A) : M A := fun st => (a, st).

Definition bind {A B} (m : M A) (k : A -> M B) : M B :=
  fun st => k (fst (m st)) (snd (m st)).

Declare Scope m_scope.
Delimit Scope m_scope with M.
Notation "x <- m ;; k" := (bind m (fun x => k))
  (at level 61, m at next level, right associativity) : m_scope.
Notation "m ;; k" := (bind m (fun _ => k))
  (at level 61, right associativity) : m_scope.
Open Scope m_scope.

Definition emit (e : event) : M unit :=
  fun st => (tt, mkState (env st) (promise st) (trace st ++ [e])).

(** The [resolve] and [reject] functions of the promise under construction. *)
Definition resolve (v : value) : M unit :=
  fun st => (tt, mkState (env st) (settle (promise st) (Resolved v))
                         (trace st ++ [EvResolve v])).

Definition reject (r : rejection) : M unit :=
  fun st => (tt, mkState (env st) (settle (promise st) (Rejected r))
                         (trace st ++ [EvReject r])).

Definition console_log (s : string) : M unit := emit (EvConsole s).

Definition get_env : M process_env := fun st => (env st, st).

Definition set_env (e : process_env) : M unit :=
  fun st => (tt, mkState e (promise st) (trace st)).

(** [if (c) { body }] *)
Definition when (c : bool) (body : M unit) : M unit :=
  if c then body else ret tt.

(** The HTTP calls of a trace, in order. *)
Fixpoint http_calls (t : list event) : list (call_site * request) :=
  match t with
  | [] => []
  | EvHttp c r :: rest => (c, r) :: http_calls rest
  | _ :: rest => http_calls rest
  end.

(** [f(x = d)]: a default parameter takes its default when the argument is
    omitted or [undefined]. *)
Definition default_arg (v d : value) : value :=
  match v with JUndefined => d | _ => v end.

(** [xs.map(f)] where [f] may throw.  A receiver that is not an array has
    no callable [map]: a TypeError. *)
Fixpoint map_throwing (f : value -> option value) (xs : list value)
  : option (list value) :=
  match xs with
  | [] => Some []
  | x :: rest =>
      match f x with
      | None => None
      | Some y =>
          match map_throwing f rest with
          | None => None
          | Some ys => Some (y :: ys)
          end
      end
  end.

Definition array_map (f : value -> option value) (v : value) : option value :=
  match v with
  | JArr xs => option_map JArr (map_throwing f xs)
  | _ => None
  end.

(** [obj[k].push(x)] for an array-valued property [k]. *)
Definition push_prop (k : string) (x : value) (props : list (string * value))
  : list (string * value) :=
  match lookup k props with
  | Some (JArr xs) => set_prop k (JArr (xs ++ [x])) props
  | _ => props
  end.

(** [filterObject] of the servers module:
    [Object.keys(obj).filter(key => predicate(obj[key]))
       .reduce((res, key) => ((res[key] = obj[key]), res), {})]. *)
Definition filterObject (obj : list (string * value)) (predicate : value -> bool)
  : list (string * value) :=
  let at_key key :=
    match lookup key obj with Some v => v | None => JUndefined end in
  fold_left (fun res key => set_prop key (at_key key) res)
            (filter (fun key => predicate (at_key key)) (map fst obj))
            [].

(** [cleanHost]: [host.replace(/\/$/, '')].  The pattern is a slash followed
    by the end of the input; [replace] with a non-global pattern rewrites
    the leftmost match, found by trying each position from the left. *)
Fixpoint cleanHost (host : string) : string :=
  match host with
  | EmptyString => EmptyString
  | String c rest =>
      if (Ascii.eqb c "/" && (rest =? ""))%bool then EmptyString
      else String c (cleanHost rest)
  end.

(** ** A reference engine for closed examples

    The conversions between strings and numbers belong to the JavaScript
    engine, not to the repository; the client is verified for every engine
    (they are variables of the section below).  Closed examples need one.
    This one prints [NaN], the infinities and the integers that print
    without an exponent, and reads the empty string and the decimal integer
    literals; a number with a fraction, or a string with blanks, a fraction,
    an exponent or a radix prefix, is outside its domain.  That covers the
    identifiers the panel uses. *)

Definition integer_of_float (x : spec_float) : option Z :=
  match x with
  | S754_zero _ => Some 0%Z
  | S754_finite s m e =>
      let sign (z : Z) := if s then (- z)%Z else z in
      if (0 <=? e)%Z then Some (sign (Zpos m * 2 ^ e)%Z)
      else if (Zpos m mod 2 ^ (- e) =? 0)%Z
           then Some (sign (Zpos m / 2 ^ (- e))%Z)
           else None
  | _ => None
  end.

Definition decimal_NumberToString (x : spec_float) : string :=
  match x with
  | S754_nan => "NaN"
  | S754_infinity false => "Infinity"
  | S754_infinity true => "-Infinity"
  | _ =>
      match integer_of_float x with
      | Some z => NilZero.string_of_int (Z.to_int z)
      | None => ""
      end
  end.

Definition decimal_StringToNumber (s : string) : spec_float :=
  if s =? "" then S754_zero false
  else match NilZero.int_of_string s with
       | Some i => num (Z.of_int i)
       | None => NaN
       end.

(** Networks for closed examples: a panel that answers every call with
    status 200 and the given body, and one where every call fails. *)
Definition panel_answers (body : value) : request -> http_outcome :=
  fun _ => HttpResponse (mkResponse 200 body).

Definition panel_unreachable (msg : string) : request -> http_outcome :=
  fun _ => HttpError (mkError msg JUndefined).

(** A panel that answers every call with the given status and no body. *)
Definition panel_status (code : Z) : request -> http_outcome :=
  fun _ => HttpResponse (mkResponse code JNull).

(** The body of a server listing with two servers. *)
Definition two_servers : value :=
  JObj [("object", JStr "list");
        ("data",
         JArr [JObj [("object", JStr "server");
                     ("attributes", JObj [("id", JNum (num 1))])];
               JObj [("object", JStr "server");
                     ("attributes", JObj [("id", JNum (num 2))])]]);
        ("meta", JObj [("pagination", JObj [("total", JNum (num 2))])])].

Definition no_credentials : process_env := mkEnv None None.

Definition stored_credentials : process_env :=
  mkEnv (Some "https://panel.example") (Some "secret").

(** A body with the [attributes] of one database, and a panel whose every
    answer is the given error. *)
Definition one_database : value :=
  JObj [("object", JStr "server_database");
        ("attributes", JObj [("id", JNum (num 2))])].

Definition panel_fails (msg : string) (status : value)
  : request -> http_outcome :=
  fun _ => HttpError (mkError msg status).

Section Client.

(** The engine's StringToNumber and Number::toString, and the network as
    axios presents it: every call settles, with a response or an error. *)
Variable StringToNumber : string -> spec_float.
Variable NumberToString : spec_float -> string.
Variable axios : request -> http_outcome.

(** ** Conversions *)

(** ToString.  An array prints as its elements joined by commas, with
    [undefined] and [null] elements empty; a plain object prints as
    [[object Object]]. *)
Fixpoint ToString (v : value) : string :=
  match v with
  | JUndefined => "undefined"
  | JNull => "null"
  | JBool true => "true"
  | JBool false => "false"
  | JNum n => NumberToString n
  | JStr s => s
  | JArr xs =>
      (fix join (l : list value) : string :=
         match l with
         | [] => ""
         | x :: rest =>
             let elt := match x with
                        | JUndefined | JNull => ""
                        | _ => ToString x
                        end in
             match rest with
             | [] => elt
             | _ :: _ => elt ++ "," ++ join rest
             end
         end) xs
  | JObj _ => "[object Object]"
  end.

(** ToPrimitive: arrays and plain objects convert through [toString]. *)
Definition ToPrimitive (v : value) : value :=
  match v with
  | JArr _ | JObj _ => JStr (ToString v)
  | _ => v
  end.

(** ToNumber *)
Definition ToNumber (v : value) : spec_float :=
  match ToPrimitive v with
  | JUndefined => NaN
  | JNull => S754_zero false
  | JBool true => num 1
  | JBool false => S754_zero false
  | JNum n => n
  | JStr s => StringToNumber s
  | _ => NaN
  end.

(** The global [isNaN(v)] *)
Definition isNaN (v : value) : bool :=
  match ToNumber v with S754_nan => true | _ => false end.

(** [a + b]: concatenation as soon as one side is a string, addition of
    doubles otherwise. *)
Definition js_plus (a b : value) : value :=
  let a' := ToPrimitive a in
  let b' := ToPrimitive b in
  match a', b' with
  | JStr _, _ | _, JStr _ => JStr (ToString a' ++ ToString b')
  | _, _ => JNum (SFadd 53 1024 (ToNumber a') (ToNumber b'))
  end.

(** [v == n] for a number [n]: [undefined] and [null] equal no number,
    every other value is compared after ToNumber. *)
Definition loose_equals_num (v : value) (n : spec_float) : bool :=
  match v with
  | JUndefined | JNull => false
  | _ => SFeqb (ToNumber v) n
  end.

(** ** request.js *)

(** The headers every helper builds from the stored key. *)
Definition admin_headers (key : value) : value :=
  JObj [("Authorization", js_plus (JStr "Bearer ") key);
        ("Content-Type", JStr "application/json");
        ("Accept", JStr "Application/vnd.pterodactyl.v1+json")].

(** The [.then]/[.catch] pair, written out identically in the four helpers:
    the status of a response, or the message of an error, decides how the
    helper's promise settles. *)
Definition settle_helper (o : http_outcome) : helper_outcome :=
  match o with
  | HttpResponse response =>
      if (status response =? 404)%Z then
        HRejected "404 Not found, check your host is correct"
      else if (status response =? 403)%Z then
        HRejected "403 Forbidden, please check your API key is correct, or that you setup permissions correctly"
      else if (status response =? 500)%Z then
        HRejected "500 Internal Server Error, check your server logs for the error"
      else HResolved (JObj [("data", data response)])
  | HttpError error => HRejected (message error)
  end.

Definition admin_getRequest (path : value) : M helper_outcome :=
  e <- get_env ;;
  let host := read_env (ADMIN_HOST e) in
  let key := read_env (ADMIN_KEY e) in
  let headers := admin_headers key in
  let call := mkRequest GET (js_plus host path) None
                        (JObj [("headers", headers)]) in
  emit (EvHttp admin_getRequest_site call) ;;
  ret (settle_helper (axios call)).

Definition admin_deleteRequest (path : value) : M helper_outcome :=
  e <- get_env ;;
  let host := read_env (ADMIN_HOST e) in
  let key := read_env (ADMIN_KEY e) in
  let headers := admin_headers key in
  let call := mkRequest DELETE (js_plus host path) None
                        (JObj [("headers", headers)]) in
  emit (EvHttp admin_deleteRequest_site call) ;;
  ret (settle_helper (axios call)).

Definition admin_patchRequest (path data : value) : M helper_outcome :=
  e <- get_env ;;
  let host := read_env (ADMIN_HOST e) in
  let key := read_env (ADMIN_KEY e) in
  let headers := admin_headers key in
  let call := mkRequest PATCH (js_plus host path) (Some data)
                        (JObj [("headers", headers)]) in
  emit (EvHttp admin_patchRequest_site call) ;;
  ret (settle_helper (axios call)).

Definition admin_postRequest (path data : value) : M helper_outcome :=
  let data := default_arg data (JObj []) in
  e <- get_env ;;
  let host := read_env (ADMIN_HOST e) in
  let key := read_env (ADMIN_KEY e) in
  let headers := admin_headers key in
  let call := mkRequest POST (js_plus host path) (Some data)
                        (JObj [("headers", headers);
                               ("followRedirect", JBool true);
                               ("maxRedirects", JNum (num 3))]) in
  emit (EvHttp admin_postRequest_site call) ;;
  ret (settle_helper (axios call)).

(** ** The servers module *)

(** [helper.then(on_fulfilled).catch(on_rejected)].  A handler that throws
    while it computes the argument of [resolve] is [None]: the TypeError
    goes to the [.catch] handler.  An error in the [.catch] handler itself
    settles nothing the caller can see. *)
Definition then_catch (o : helper_outcome)
    (on_fulfilled : value -> option (M unit))
    (on_rejected : rejection -> M unit) : M unit :=
  match o with
  | HResolved response =>
      match on_fulfilled response with
      | Some k => k
      | None => on_rejected RTypeError
      end
  | HRejected error => on_rejected (RMessage error)
  end.

Definition obind {A B} (o : option A) (k : A -> option B) : option B :=
  match o with Some a => k a | None => None end.

(** [(x) => x.attributes] *)
Definition attributes_of (x : value) : option value := get_prop x "attributes".

(** [response.data.attributes] *)
Definition response_attributes (response : value) : option value :=
  obind (get_prop response "data") (fun d => get_prop d "attributes").

Definition ne (a b : string) : bool := negb (a =? b).

Definition getAllServers : M unit :=
  o <- admin_getRequest (JStr "/api/application/servers") ;;
  then_catch o
    (fun response =>
       obind (get_prop response "data") (fun d =>
       obind (get_prop d "data") (fun items =>
       obind (array_map attributes_of items) (fun servers =>
       obind (get_prop d "meta") (fun meta =>
       obind (get_prop meta "pagination") (fun pagination =>
       Some (resolve (JObj [("servers", servers);
                            ("pagination", pagination)]))))))))
    (fun error => reject error).

(** The path is written ['/api/application/servers/' + external ?
    'external/' + id : id]; [+] binds tighter than [?:], so the condition
    is the concatenation. *)
Definition getServerInformation (id external : value) : M unit :=
  let external := default_arg external (JBool false) in
  o <- admin_getRequest
         (if ToBoolean (js_plus (JStr "/api/application/servers/") external)
          then js_plus (JStr "external/") id
          else id) ;;
  then_catch o
    (fun response =>
       obind (response_attributes response) (fun a => Some (resolve a)))
    (fun error => reject error).

Definition getAllDatabases (internal_id : value) : M unit :=
  when (isNaN internal_id)
       (reject (RMessage "Internal ID must be a number")) ;;
  o <- admin_getRequest
         (js_plus (js_plus (JStr "/api/application/servers/") internal_id)
                  (JStr "/databases")) ;;
  then_catch o
    (fun response =>
       obind (get_prop response "data") (fun d =>
       obind (get_prop d "data") (fun items =>
       obind (array_map attributes_of items) (fun databases =>
       Some (resolve (JObj [("databases", databases)]))))))
    (fun error => reject error).

Definition getDatabase (internal_id database_id : value) : M unit :=
  when (isNaN internal_id)
       (reject (RMessage "Internal ID must be a number")) ;;
  when (isNaN database_id)
       (reject (RMessage "Database ID must be a number")) ;;
  o <- admin_getRequest
         (js_plus (js_plus (js_plus (JStr "/api/application/servers/")
                                    internal_id)
                           (JStr "/databases/"))
                  database_id) ;;
  then_catch o
    (fun response =>
       obind (response_attributes response) (fun a => Some (resolve a)))
    (fun error => reject error).

Definition createDatabase_403 : string :=
  "Request failed with status code 403" ++ String (ascii_of_nat 10)
  "Possible reasons: invalid API key, reached limit of databases for that server, not your server".

Definition createDatabase (internal_id database host remote : value) : M unit :=
  when (isNaN internal_id)
       (reject (RMessage "Internal ID must be a number")) ;;
  when (negb (ToBoolean database) || ne (typeof database) "string")
       (reject (RMessage "Database name must be a string")) ;;
  when (negb (ToBoolean host) || ne (typeof host) "number")
       (reject (RMessage "Database host must be a integer")) ;;
  when (negb (ToBoolean remote) || ne (typeof remote) "string")
       (reject (RMessage "Database remote connection rule must be a string")) ;;
  o <- admin_postRequest
         (js_plus (js_plus (JStr "/api/application/servers/") internal_id)
                  (JStr "/databases"))
         (JObj [("database", database); ("remote", remote); ("host", host)]) ;;
  then_catch o
    (fun response =>
       obind (response_attributes response) (fun a => Some (resolve a)))
    (fun error =>
       match error with
       | RMessage msg =>
           if includes msg "403" then reject (RMessage createDatabase_403)
           else reject error
       | RTypeError => ret tt  (* [error.includes] is not a function *)
       end).

Definition createServer
    (name description userID eggID startup dockerImage allocationID
     startOnComplete environment memory disk cpu swap io
     additionalAllocations databases allocations deploy skipScripts
     oomDisabled : value) : M unit :=
  let cpu := default_arg cpu (JNum (num 0)) in
  let swap := default_arg swap (JNum (num (-1))) in
  let io := default_arg io (JNum (num 500)) in
  let additionalAllocations := default_arg additionalAllocations (JArr []) in
  let databases := default_arg databases (JNum (num 0)) in
  let allocations := default_arg allocations (JNum (num 0)) in
  let deploy :=
    default_arg deploy
      (JObj [("locations", JArr [JNum (num 1)]);
             ("dedicated_ip", JBool false);
             ("port_range", JArr [])]) in
  let skipScripts := default_arg skipScripts (JBool false) in
  let oomDisabled := default_arg oomDisabled (JBool true) in
  when (ne (typeof name) "string")
       (reject (RMessage "Error: Server name must be a string")) ;;
  when (ne (typeof userID) "number")
       (reject (RMessage "Error: User ID must be a number")) ;;
  when (ne (typeof eggID) "number")
       (reject (RMessage "Error: Egg ID must be a number")) ;;
  when (ne (typeof startup) "string")
       (reject (RMessage "Error: Startup command must be a string")) ;;
  when (ne (typeof memory) "number")
       (reject (RMessage "Error: Memory allocated must be a number")) ;;
  when (ne (typeof disk) "number")
       (reject (RMessage "Error: Disk space must be a number")) ;;
  when (ne (typeof dockerImage) "string")
       (reject (RMessage "Error: Docker image must be a string")) ;;
  when (ne (typeof allocationID) "number")
       (reject (RMessage "Error: Allocation ID must be a number")) ;;
  when (ne (typeof startOnComplete) "boolean")
       (reject (RMessage "Error: Start on complete setting must be a boolean")) ;;
  when (negb (Array_isArray additionalAllocations))
       (reject (RMessage "Error: Additional allocations must be an array")) ;;
  when (ne (typeof cpu) "number")
       (reject (RMessage "Error: CPU limit must be a number")) ;;
  when (ne (typeof swap) "number")
       (reject (RMessage "Error: Swap space must be a number")) ;;
  (if ne (typeof io) "number"
   then reject (RMessage "Error: Block IO proportion must be a number")
   else when (negb (strict_equals_num io (num 500)))
             (console_log "Block IO proportion is not set to 500, I sure hope you know what you are doing")) ;;
  when (ne (typeof environment) "object")
       (reject (RMessage "Error: Environment variables must be in an Object")) ;;
  when (ne (typeof databases) "number")
       (reject (RMessage "Error: Database allocations must be a number")) ;;
  when (ne (typeof deploy) "object")
       (reject (RMessage "Error: Deployment settings must be in an Object")) ;;
  when (ne (typeof skipScripts) "boolean")
       (reject (RMessage "Error: Skip scripts setting must be a boolean")) ;;
  when (ne (typeof oomDisabled) "boolean")
       (reject (RMessage "Error: OOM Killer setting must be a boolean")) ;;
  let data :=
    JObj [("name", name);
          ("description", description);
          ("startup", startup);
          ("environment", environment);
          ("deploy", deploy);
          ("start_on_completion", startOnComplete);
          ("user", userID);
          ("egg", eggID);
          ("limits", JObj [("memory", memory); ("swap", swap);
                           ("disk", disk); ("io", io); ("cpu", cpu)]);
          ("feature_limits", JObj [("databases", databases);
                                   ("allocations", allocations)]);
          ("docker_image", dockerImage);
          ("allocation", JObj [("default", allocationID);
                               ("additional", additionalAllocations)]);
          ("skip_scripts", skipScripts);
          ("oom_disabled", oomDisabled)] in
  o <- admin_postRequest (JStr "/api/application/servers") data ;;
  then_catch o
    (fun response =>
       obind (response_attributes response) (fun a =>
       Some (resolve (JObj [("server", a)]))))
    (fun error => reject error).

Definition suspendServer (internal_id : value) : M unit :=
  when (isNaN internal_id)
       (reject (RMessage "Internal ID must be a number")) ;;
  o <- admin_postRequest
         (js_plus (js_plus (JStr "/api/application/servers/") internal_id)
                  (JStr "/suspend")) JUndefined ;;
  then_catch o
    (fun _ => Some (resolve (JStr "Successfully suspended the server")))
    (fun err => reject err).

Definition unsuspendServer (internal_id : value) : M unit :=
  when (isNaN internal_id)
       (reject (RMessage "Internal ID must be a number")) ;;
  o <- admin_postRequest
         (js_plus (js_plus (JStr "/api/application/servers/") internal_id)
                  (JStr "/unsuspend")) JUndefined ;;
  then_catch o
    (fun _ => Some (resolve (JStr "Successfully unsuspended the server")))
    (fun err => reject err).

Definition reinstallServer (internal_id : value) : M unit :=
  when (isNaN internal_id)
       (reject (RMessage "Internal ID must be a number")) ;;
  o <- admin_postRequest
         (js_plus (js_plus (JStr "/api/application/servers/") internal_id)
                  (JStr "/reinstall")) JUndefined ;;
  then_catch o
    (fun _ => Some (resolve (JStr "Successfully started to reinstall the server")))
    (fun err => reject err).

Definition rebuildServer (internal_id : value) : M unit :=
  when (isNaN internal_id)
       (reject (RMessage "Internal ID must be a number")) ;;
  o <- admin_postRequest
         (js_plus (js_plus (JStr "/api/application/servers/") internal_id)
                  (JStr "/rebuild")) JUndefined ;;
  then_catch o
    (fun _ => Some (resolve (JStr "Successfully started to rebuild the server")))
    (fun err => reject err).

Definition deleteServer (internal_id : value) : M unit :=
  when (isNaN internal_id)
       (reject (RMessage "Internal ID must be a number")) ;;
  o <- admin_deleteRequest
         (js_plus (JStr "/api/application/servers/") internal_id) ;;
  then_catch o
    (fun _ => Some (resolve (JStr "Successfully deleted the server")))
    (fun err => reject err).

Definition updateServerDetails
    (internal_id name user external_id description : value) : M unit :=
  when (isNaN internal_id)
       (reject (RMessage "Internal ID must be a number")) ;;
  when (negb (ToBoolean name) || ne (typeof name) "string")
       (reject (RMessage "You must supply a valid name")) ;;
  when (negb (ToBoolean user) || ne (typeof user) "number")
       (reject (RMessage "You must supply a valid user ID")) ;;
  let obj := [("name", name); ("user", user)] in
  let obj := if ToBoolean external_id
             then set_prop "external_id" external_id obj else obj in
  let obj := if ToBoolean description && (typeof description =? "string")
             then set_prop "description" description obj else obj in
  o <- admin_patchRequest
         (js_plus (js_plus (JStr "/api/application/servers/") internal_id)
                  (JStr "/details"))
         (JObj obj) ;;
  then_catch o
    (fun response =>
       obind (response_attributes response) (fun a =>
       Some (resolve (JObj [("server", a)]))))
    (fun error => reject error).

(** [v && v.length] as a condition *)
Definition truthy_length (v : value) : bool :=
  ToBoolean v &&
  match get_prop v "length" with Some l => ToBoolean l | None => false end.

Definition updateServerBuildConfiguration
    (internal_id allocation_id database_limit allocation_limit memory disk
     cpu swap io add_allocations remove_allocations oom_disabled : value)
  : M unit :=
  when (isNaN internal_id)
       (reject (RMessage "Internal ID must be a number")) ;;
  when (negb (ToBoolean allocation_id))
       (reject (RMessage "You must supply an allocation ID")) ;;
  let obj := [("allocation_id", allocation_id); ("feature_limits", JArr [])] in
  let obj := if ToBoolean database_limit && (typeof database_limit =? "number")
             then push_prop "feature_limits" database_limit obj else obj in
  let obj := if ToBoolean allocation_limit && (typeof allocation_limit =? "number")
             then push_prop "feature_limits" allocation_limit obj else obj in
  let limits :=
    filterObject [("memory", memory); ("disk", disk); ("cpu", cpu);
                  ("swap", swap); ("io", io)]
                 (fun val => typeof val =? "number") in
  let obj := if ToBoolean memory || ToBoolean disk || ToBoolean cpu
                || ToBoolean swap || ToBoolean io
             then set_prop "limits" (JObj limits) obj else obj in
  let obj := if truthy_length add_allocations
             then set_prop "add_allocations" add_allocations obj else obj in
  let obj := if truthy_length remove_allocations
             then set_prop "remove_allocations" remove_allocations obj else obj in
  let obj := if negb (match oom_disabled with JUndefined => true | _ => false end)
                && (typeof oom_disabled =? "boolean")
             then set_prop "oom_disabled" oom_disabled obj else obj in
  o <- admin_patchRequest
         (js_plus (js_plus (JStr "/api/application/servers/") internal_id)
                  (JStr "/build"))
         (JObj obj) ;;
  then_catch o
    (fun response =>
       obind (response_attributes response) (fun a =>
       Some (resolve (JObj [("server", a)]))))
    (fun error => reject error).

(** ** The index module *)

(** How a call of [setApiKey] ends: it returns its promise, or it throws
    before creating one ([host.replace] on a host that is not a string). *)
Inductive completion : Type := Returned | Threw.

Definition setApiKey (host key : value) : M completion :=
  match host with
  | JStr h =>
      e <- get_env ;;
      set_env (mkEnv (Some (cleanHost h)) (ADMIN_KEY e)) ;;
      e <- get_env ;;
      set_env (mkEnv (ADMIN_HOST e) (Some (ToString key))) ;;
      let call :=
        mkRequest GET (JStr (ToString host ++ "/api/application/users")) None
          (JObj [("maxRedirects", JNum (num 5));
                 ("headers",
                  JObj [("Authorization", JStr ("Bearer " ++ ToString key));
                        ("Content-Type", JStr "application/json");
                        ("Accept", JStr "Application/vnd.pterodactyl.v1+json")]);
                 ("responseEncoding", JStr "utf8")]) in
      emit (EvHttp setApiKey_site call) ;;
      match axios call with
      | HttpResponse res =>
          if strict_equals_num (response_value res) (num 404) then
            resolve (JObj [("loggedIn", JBool false);
                           ("message", JStr "404 Not found, please check you have provided a valid host.")])
          else
            resolve (JObj [("loggedIn", JBool true);
                           ("message", JStr "Successfully authenticated")])
      | HttpError err =>
          if loose_equals_num (err_status err) (num 403) then
            resolve (JObj [("loggedIn", JBool false);
                           ("message", JStr "403 Forbidden, please check your API key is valid")])
          else
            resolve (JObj [("loggedIn", JBool false);
                           ("message", JStr (message err))])
      end ;;
      ret Returned
  | _ => ret Threw
  end.

(** ** Invocations *)

(** The thirteen endpoint functions the servers module exports, with their
    arguments. *)
Inductive endpoint : Type :=
| GetAllServers
| GetServerInformation (id external : value)
| GetAllDatabases (internal_id : value)
| GetDatabase (internal_id database_id : value)
| CreateDatabase (internal_id database host remote : value)
| CreateServer
    (name description userID eggID startup dockerImage allocationID
     startOnComplete environment memory disk cpu swap io
     additionalAllocations databases allocations deploy skipScripts
     oomDisabled : value)
| SuspendServer (internal_id : value)
| UnsuspendServer (internal_id : value)
| ReinstallServer (internal_id : value)
| RebuildServer (internal_id : value)
| DeleteServer (internal_id : value)
| UpdateServerDetails (internal_id name user external_id description : value)
| UpdateServerBuildConfiguration
    (internal_id allocation_id database_limit allocation_limit memory disk
     cpu swap io add_allocations remove_allocations oom_disabled : value).

Definition invoke (c : endpoint) : M unit :=
  match c with
  | GetAllServers => getAllServers
  | GetServerInformation id external => getServerInformation id external
  | GetAllDatabases i => getAllDatabases i
  | GetDatabase i d => getDatabase i d
  | CreateDatabase i d h r => createDatabase i d h r
  | CreateServer a1 a2 a3 a4 a5 a6 a7 a8 a9 a10 a11 a12 a13 a14 a15 a16 a17
                 a18 a19 a20 =>
      createServer a1 a2 a3 a4 a5 a6 a7 a8 a9 a10 a11 a12 a13 a14 a15 a16
                   a17 a18 a19 a20
  | SuspendServer i => suspendServer i
  | UnsuspendServer i => unsuspendServer i
  | ReinstallServer i => reinstallServer i
  | RebuildServer i => rebuildServer i
  | DeleteServer i => deleteServer i
  | UpdateServerDetails i n u x d => updateServerDetails i n u x d
  | UpdateServerBuildConfiguration a1 a2 a3 a4 a5 a6 a7 a8 a9 a10 a11 a12 =>
      updateServerBuildConfiguration a1 a2 a3 a4 a5 a6 a7 a8 a9 a10 a11 a12
  end.

(** A call creates a fresh promise and runs until its callbacks have run:
    the final state holds the stored credentials, the promise the caller
    received and everything that happened, in order. *)
Definition exec {A} (m : M A) (e : process_env) : state :=
  snd (m (mkState e Pending [])).

Definition outcome {A} (m : M A) (e : process_env) : A :=
  fst (m (mkState e Pending [])).



(** ** The validation checks, as a table

    The executor of an endpoint function opens with its validation
    statements: [if (failed) reject(message)], and in [createServer] one
    conditional [console.log].  The table lists them per function in source
    order; [invoke_splits] below proves that each function is its table
    followed by the rest of its body. *)
Inductive step : Type :=
| Check (failed : bool) (msg : string)
| Note (printed : bool) (text : string).

Definition run_step (s : step) : M unit :=
  match s with
  | Check failed msg => when failed (reject (RMessage msg))
  | Note printed text => when printed (console_log text)
  end.

Fixpoint run_steps (ss : list step) : M unit :=
  match ss with
  | [] => ret tt
  | s :: rest => run_step s ;; run_steps rest
  end.

Definition internal_id_check (internal_id : value) : step :=
  Check (isNaN internal_id) "Internal ID must be a number".

Definition validation_steps (c : endpoint) : list step :=
  match c with
  | GetAllServers => []
  | GetServerInformation _ _ => []
  | GetAllDatabases i => [internal_id_check i]
  | GetDatabase i d =>
      [internal_id_check i;
       Check (isNaN d) "Database ID must be a number"]
  | CreateDatabase i database host remote =>
      [internal_id_check i;
       Check (negb (ToBoolean database) || ne (typeof database) "string")
             "Database name must be a string";
       Check (negb (ToBoolean host) || ne (typeof host) "number")
             "Database host must be a integer";
       Check (negb (ToBoolean remote) || ne (typeof remote) "string")
             "Database remote connection rule must be a string"]
  | CreateServer name description userID eggID startup dockerImage
                 allocationID startOnComplete environment memory disk cpu
                 swap io additionalAllocations databases allocations deploy
                 skipScripts oomDisabled =>
      let cpu := default_arg cpu (JNum (num 0)) in
      let swap := default_arg swap (JNum (num (-1))) in
      let io := default_arg io (JNum (num 500)) in
      let additionalAllocations := default_arg additionalAllocations (JArr []) in
      let databases := default_arg databases (JNum (num 0)) in
      let deploy :=
        default_arg deploy
          (JObj [("locations", JArr [JNum (num 1)]);
                 ("dedicated_ip", JBool false);
                 ("port_range", JArr [])]) in
      let skipScripts := default_arg skipScripts (JBool false) in
      let oomDisabled := default_arg oomDisabled (JBool true) in
      [Check (ne (typeof name) "string") "Error: Server name must be a string";
       Check (ne (typeof userID) "number") "Error: User ID must be a number";
       Check (ne (typeof eggID) "number") "Error: Egg ID must be a number";
       Check (ne (typeof startup) "string")
             "Error: Startup command must be a string";
       Check (ne (typeof memory) "number")
             "Error: Memory allocated must be a number";
       Check (ne (typeof disk) "number") "Error: Disk space must be a number";
       Check (ne (typeof dockerImage) "string")
             "Error: Docker image must be a string";
       Check (ne (typeof allocationID) "number")
             "Error: Allocation ID must be a number";
       Check (ne (typeof startOnComplete) "boolean")
             "Error: Start on complete setting must be a boolean";
       Check (negb (Array_isArray additionalAllocations))
             "Error: Additional allocations must be an array";
       Check (ne (typeof cpu) "number") "Error: CPU limit must be a number";
       Check (ne (typeof swap) "number") "Error: Swap space must be a number";
       Check (ne (typeof io) "number")
             "Error: Block IO proportion must be a number";
       Note (negb (ne (typeof io) "number")
             && negb (strict_equals_num io (num 500)))
            "Block IO proportion is not set to 500, I sure hope you know what you are doing";
       Check (ne (typeof environment) "object")
             "Error: Environment variables must be in an Object";
       Check (ne (typeof databases) "number")
             "Error: Database allocations must be a number";
       Check (ne (typeof deploy) "object")
             "Error: Deployment settings must be in an Object";
       Check (ne (typeof skipScripts) "boolean")
             "Error: Skip scripts setting must be a boolean";
       Check (ne (typeof oomDisabled) "boolean")
             "Error: OOM Killer setting must be a boolean"]
  | SuspendServer i => [internal_id_check i]
  | UnsuspendServer i => [internal_id_check i]
  | ReinstallServer i => [internal_id_check i]
  | RebuildServer i => [internal_id_check i]
  | DeleteServer i => [internal_id_check i]
  | UpdateServerDetails i name user _ _ =>
      [internal_id_check i;
       Check (negb (ToBoolean name) || ne (typeof name) "string")
             "You must supply a valid name";
       Check (negb (ToBoolean user) || ne (typeof user) "number")
             "You must supply a valid user ID"]
  | UpdateServerBuildConfiguration i allocation_id _ _ _ _ _ _ _ _ _ _ =>
      [internal_id_check i;
       Check (negb (ToBoolean allocation_id)) "You must supply an allocation ID"]
  end.

(** The checks of a table: whether each failed, and its message. *)
Fixpoint checks_of (ss : list step) : list (bool * string) :=
  match ss with
  | [] => []
  | Check failed msg :: rest => (failed, msg) :: checks_of rest
  | Note _ _ :: rest => checks_of rest
  end.

Definition validation_checks (c : endpoint) : list (bool * string) :=
  checks_of (validation_steps c).

(** The message of the first check that failed, if any did. *)
Fixpoint first_failure (cs : list (bool * string)) : option string :=
  match cs with
  | [] => None
  | (true, msg) :: _ => Some msg
  | (false, _) :: rest => first_failure rest
  end.

(** What the steps of a table leave in the trace. *)
Fixpoint step_events (ss : list step) : list event :=
  match ss with
  | [] => []
  | Check true msg :: rest => EvReject (RMessage msg) :: step_events rest
  | Note true text :: rest => EvConsole text :: step_events rest
  | _ :: rest => step_events rest
  end.

Definition verdict (cs : list (bool * string)) : promise_state :=
  match first_failure cs with
  | Some msg => Rejected (RMessage msg)
  | None => Pending
  end.

(** [undefined] and [null]: the values without properties. *)
Definition nullish (v : value) : bool :=
  match v with JUndefined | JNull => true | _ => false end.

(** [v.k] on a value that has properties. *)
Definition field (v : value) (k : string) : value :=
  match get_prop v k with Some x => x | None => JUndefined end.

(** The string ends with a slash. *)
Fixpoint ends_with_slash (s : string) : bool :=
  match s with
  | EmptyString => false
  | String c rest =>
      if rest =? "" then Ascii.eqb c "/" else ends_with_slash rest
  end.

(** The four helpers of [request.js], by name. *)
Inductive helper : Type := GetRequest | DeleteRequest | PatchRequest | PostRequest.

Definition call_helper (h : helper) (path data : value) : M helper_outcome :=
  match h with
  | GetRequest => admin_getRequest path
  | DeleteRequest => admin_deleteRequest path
  | PatchRequest => admin_patchRequest path data
  | PostRequest => admin_postRequest path data
  end.

Definition helper_site (h : helper) : call_site :=
  match h with
  | GetRequest => admin_getRequest_site
  | DeleteRequest => admin_deleteRequest_site
  | PatchRequest => admin_patchRequest_site
  | PostRequest => admin_postRequest_site
  end.

Local Open Scope list_scope.

(** ** What the parts of an endpoint function may do *)

(** A computation that leaves the credentials alone, calls nothing over
    HTTP and never changes a promise that is already settled: the argument
    checks and the [.then]/[.catch] handlers. *)
Definition quiet (m : M unit) : Prop :=
  forall st,
    env (snd (m st)) = env st /\
    (promise st <> Pending -> promise (snd (m st)) = promise st) /\
    exists evs, trace (snd (m st)) = trace st ++ evs /\ http_calls evs = [].

(** A computation that does nothing but issue one HTTP call, from a helper
    of [request.js]. *)
Definition single_call (h : M helper_outcome) : Prop :=
  forall st,
    env (snd (h st)) = env st /\
    promise (snd (h st)) = promise st /\
    exists site call,
      through_helper site = true /\
      trace (snd (h st)) = trace st ++ [EvHttp site call].

(** The body of an endpoint function after its argument checks: one HTTP
    call through a helper, then handlers that settle the promise if it is
    still pending. *)
Definition core_ok (core : M unit) : Prop :=
  forall st,
    env (snd (core st)) = env st /\
    (promise st <> Pending -> promise (snd (core st)) = promise st) /\
    exists site call rest,
      through_helper site = true /\
      trace (snd (core st)) = trace st ++ EvHttp site call :: rest /\
      http_calls rest = [].

(** ** The request a helper builds, and what a run prints *)

Definition helper_method (h : helper) : method :=
  match h with
  | GetRequest => GET
  | DeleteRequest => DELETE
  | PatchRequest => PATCH
  | PostRequest => POST
  end.

(** [get] and [delete] send no body, [patch] sends its [data] as given,
    [post] sends [{}] when [data] is omitted. *)
Definition helper_body (h : helper) (data : value) : option value :=
  match h with
  | GetRequest | DeleteRequest => None
  | PatchRequest => Some data
  | PostRequest => Some (default_arg data (JObj []))
  end.

Definition helper_config (h : helper) (key : value) : value :=
  match h with
  | PostRequest =>
      JObj [("headers", admin_headers key);
            ("followRedirect", JBool true);
            ("maxRedirects", JNum (num 3))]
  | _ => JObj [("headers", admin_headers key)]
  end.

Definition helper_request (h : helper) (e : process_env) (path data : value)
  : request :=
  mkRequest (helper_method h)
            (js_plus (read_env (ADMIN_HOST e)) path)
            (helper_body h data)
            (helper_config h (read_env (ADMIN_KEY e))).

(** What [process.env.X] reads as inside a string. *)
Definition env_string (x : option string) : string :=
  match x with Some s => s | None => "undefined" end.

(** The lines a run wrote with [console.log]. *)
Fixpoint console_logs (t : list event) : list string :=
  match t with
  | [] => []
  | EvConsole s :: rest => s :: console_logs rest
  | _ :: rest => console_logs rest
  end.

Definition is_createDatabase (c : endpoint) : bool :=
  match c with CreateDatabase _ _ _ _ => true | _ => false end.

Definition is_getServerInformation (c : endpoint) : bool :=
  match c with GetServerInformation _ _ => true | _ => false end.

(** The headers a helper builds from the stored key, written out. *)
Definition bearer_headers (key : option string) : value :=
  JObj [("Authorization", JStr ("Bearer " ++ env_string key)%string);
        ("Content-Type", JStr "application/json");
        ("Accept", JStr "Application/vnd.pterodactyl.v1+json")].

(** The text a value contributes when it is concatenated to a string. *)
Definition text_of (v : value) : string := ToString (ToPrimitive v).

(** The texts of the notes of a table that were printed. *)
Fixpoint printed_notes (ss : list step) : list string :=
  match ss with
  | [] => []
  | Note true text :: rest => text :: printed_notes rest
  | _ :: rest => printed_notes rest
  end.

Definition is_createServer (c : endpoint) : bool :=
  match c with
  | CreateServer _ _ _ _ _ _ _ _ _ _ _ _ _ _ _ _ _ _ _ _ => true
  | _ => false
  end.

(** The call [m] issues one request with the given method, URL and body,
    resolves with the fixed text [done] whenever the helper resolves, and
    rejects with the helper's message whenever the helper rejects. *)
Definition announces (m : M unit) (e : process_env) (meth : method)
    (url : string) (body : option value) (done : string) : Prop :=
  exists site call,
    http_calls (trace (exec m e)) = [(site, call)] /\
    req_method call = meth /\
    req_url call = JStr url /\
    req_body call = body /\
    (forall response,
        settle_helper (axios call) = HResolved response ->
        promise (exec m e) = Resolved (JStr done)) /\
    (forall msg,
        settle_helper (axios call) = HRejected msg ->
        promise (exec m e) = Rejected (RMessage msg)).

(** How the functions that return one resource present the [attributes] of
    the response body: as they are, or as [{server: attributes}]. *)
Definition presents (c : endpoint) : option (value -> value) :=
  match c with
  | GetServerInformation _ _ | GetDatabase _ _ | CreateDatabase _ _ _ _ =>
      Some (fun a => a)
  | CreateServer _ _ _ _ _ _ _ _ _ _ _ _ _ _ _ _ _ _ _ _
  | UpdateServerDetails _ _ _ _ _
  | UpdateServerBuildConfiguration _ _ _ _ _ _ _ _ _ _ _ _ =>
      Some (fun a => JObj [("server", a)])
  | _ => None
  end.

(** * Properties *)

(** ** Promises and traces *)

Lemma settle_pending_r (p : promise_state) : settle p Pending = p.
Proof. destruct p; reflexivity. Qed.

Lemma http_calls_app (t u : list event) :
  http_calls (t ++ u) = http_calls t ++ http_calls u.
Proof.
  induction t as [|[] t IH]; simpl; rewrite ?IH; reflexivity.
Qed.

Lemma http_calls_step_events (ss : list step) : http_calls (step_events ss) = [].
Proof.
  induction ss as [|[[] ?|[] ?] ss IH]; simpl; auto.
Qed.


(** Running a table: the failed checks reject in order, the first of them
    settles the promise, nothing else changes. *)
Lemma run_steps_spec (ss : list step) (st : state) :
  snd (run_steps ss st) =
  mkState (env st)
          (settle (promise st) (verdict (checks_of ss)))
          (trace st ++ step_events ss).
Proof.
  revert st. induction ss as [|s ss IH]; intros [e p t].
  - simpl. rewrite settle_pending_r, app_nil_r. reflexivity.
  - change (run_steps (s :: ss)) with (run_step s ;; run_steps ss).
    unfold bind. rewrite IH. clear IH.
    destruct s as [[] msg|[] text]; simpl;
      rewrite <- ?app_assoc; simpl; try reflexivity.
    f_equal. unfold verdict. simpl.
    destruct p; reflexivity.
Qed.

(** ** The building blocks are well behaved *)

Lemma quiet_ret : quiet (ret tt).
Proof.
  intros st. simpl.
  split; [reflexivity|]. split; [reflexivity|].
  exists []. rewrite app_nil_r. auto.
Qed.

Lemma quiet_resolve (v : value) : quiet (resolve v).
Proof.
  intros [e p t]. simpl.
  split; [reflexivity|].
  split; [destruct p; simpl; congruence|].
  eexists. split; reflexivity.
Qed.

Lemma quiet_reject (r : rejection) : quiet (reject r).
Proof.
  intros [e p t]. simpl.
  split; [reflexivity|].
  split; [destruct p; simpl; congruence|].
  eexists. split; reflexivity.
Qed.

Lemma quiet_if (b : bool) (m1 m2 : M unit) :
  quiet m1 -> quiet m2 -> quiet (if b then m1 else m2).
Proof. destruct b; auto. Qed.

Lemma call_helper_single (h : helper) (path body : value) :
  single_call (call_helper h path body).
Proof.
  intros st. destruct h; simpl;
    (split; [reflexivity|]; split; [reflexivity|];
     eexists _, _; split; [|reflexivity]; reflexivity).
Qed.

(** A helper call followed by [.then(...).catch(...)] with quiet handlers. *)
Lemma then_catch_core (h : M helper_outcome)
    (f : value -> option (M unit)) (g : rejection -> M unit) :
  single_call h ->
  (forall response k, f response = Some k -> quiet k) ->
  (forall r, quiet (g r)) ->
  core_ok (o <- h ;; then_catch o f g).
Proof.
  intros Hh Hf Hg st. unfold bind.
  destruct (Hh st) as (He & Hp & site & call & Hsite & Ht).
  set (st1 := snd (h st)) in *.
  assert (Hk : quiet (then_catch (fst (h st)) f g)).
  { unfold then_catch. destruct (fst (h st)) as [response|msg]; auto.
    destruct (f response) as [k|] eqn:E; eauto. }
  destruct (Hk st1) as (He' & Hp' & evs & Ht' & Hc).
  split; [congruence|].
  split; [intros H; rewrite Hp'; congruence|].
  exists site, call, evs.
  split; [assumption|]. split; [|assumption].
  rewrite Ht', Ht, <- app_assoc. reflexivity.
Qed.

(** ** Every endpoint function is its table, then one helper call *)

Ltac core_of t :=
  lazymatch t with
  | bind (when _ _) (fun _ => ?k) => core_of k
  | bind (if _ then _ else _) (fun _ => ?k) => core_of k
  | _ => t
  end.

Ltac quiet_handler :=
  repeat apply quiet_if;
  first [ apply quiet_resolve | apply quiet_reject | apply quiet_ret ].

Ltac helper_is_single :=
  first [ exact (call_helper_single GetRequest _ JUndefined)
        | exact (call_helper_single DeleteRequest _ JUndefined)
        | exact (call_helper_single PatchRequest _ _)
        | exact (call_helper_single PostRequest _ _) ].

Ltac then_handler_is_quiet :=
  let response := fresh "response" in
  let k := fresh "k" in
  let H := fresh "H" in
  intros response k H;
  unfold response_attributes, obind in H;
  repeat match type of H with
         | context [match ?x with _ => _ end] => destruct x; try discriminate
         end;
  inversion H; quiet_handler.

Ltac catch_handler_is_quiet :=
  let r := fresh "r" in
  intros r; first [ quiet_handler | destruct r; quiet_handler ].

Ltac core_is_ok :=
  apply then_catch_core;
  [ helper_is_single | then_handler_is_quiet | catch_handler_is_quiet ].

Lemma invoke_splits (c : endpoint) :
  exists core,
    core_ok core /\
    forall st, invoke c st = (run_steps (validation_steps c) ;; core) st.
Proof.
  destruct c; cbn [invoke];
    unfold getAllServers, getServerInformation, getAllDatabases, getDatabase,
      createDatabase, createServer, suspendServer, unsuspendServer,
      reinstallServer, rebuildServer, deleteServer, updateServerDetails,
      updateServerBuildConfiguration;
    cbv zeta;
    match goal with
    | |- exists core, _ /\ forall st, ?body st = _ =>
        let k := core_of body in exists k
    end;
    (split; [core_is_ok|]); intros st;
    try reflexivity.
  cbn [validation_steps]. cbv zeta.
  destruct (ne (typeof (default_arg io (JNum (num 500)))) "number");
    reflexivity.
Qed.

(** The run of an endpoint function, start to end: the credentials are
    untouched, the trace is what the argument checks left, then one HTTP
    call through a helper, then what the handlers did; and a failed check
    decides the promise. *)
Lemma invoke_shape (c : endpoint) (e : process_env) :
  env (exec (invoke c) e) = e /\
  (forall msg,
      first_failure (validation_checks c) = Some msg ->
      promise (exec (invoke c) e) = Rejected (RMessage msg)) /\
  exists site call rest,
    through_helper site = true /\
    trace (exec (invoke c) e) =
      step_events (validation_steps c) ++ EvHttp site call :: rest /\
    http_calls rest = [].
Proof.
  destruct (invoke_splits c) as (core & Hcore & Heq).
  unfold exec. rewrite Heq. unfold bind. rewrite run_steps_spec.
  cbn [env promise trace settle app].
  set (st1 := mkState e _ _).
  destruct (Hcore st1) as (He & Hp & site & call & rest & Hsite & Ht & Hrest).
  split; [exact He|]. split.
  - intros msg Hmsg. rewrite Hp; subst st1; cbn [promise].
    + unfold validation_checks in Hmsg. unfold verdict. rewrite Hmsg.
      reflexivity.
    + unfold validation_checks in Hmsg. unfold verdict. rewrite Hmsg.
      discriminate.
  - exists site, call, rest. auto.
Qed.

(** ** The claims *)


(** C5: no endpoint function changes the stored credentials; [setApiKey]
    is the function that writes them. *)
Theorem endpoints_preserve_credentials :
  (forall (c : endpoint) (e : process_env), env (exec (invoke c) e) = e) /\
  (forall (host : string) (key : value) (e : process_env),
      env (exec (setApiKey (JStr host) key) e)
      = mkEnv (Some (cleanHost host)) (Some (ToString key))).
Proof.
  split.
  - intros c e. apply invoke_shape.
  - intros host key e. unfold exec, setApiKey, bind. cbn [fst snd get_env set_env emit env promise trace ret app ADMIN_HOST ADMIN_KEY].
    destruct (axios _) as [res|err]; cbn [fst snd resolve trace];
      [destruct (strict_equals_num _ _)|destruct (loose_equals_num _ _)];
      reflexivity.
Qed.



(** C1: each of the four helpers maps the response or error of its HTTP
    call to its promise: status 404, 403 and 500 reject with their fixed
    messages, every other response resolves with [{data: response.data}],
    and an error of the call rejects with the error's message. *)
Theorem admin_helpers_map_status
    (h : helper) (path body : value) (e : process_env) :
  exists call,
    http_calls (trace (exec (call_helper h path body) e))
    = [(helper_site h, call)] /\
    (forall r, axios call = HttpResponse r -> status r = 404%Z ->
       outcome (call_helper h path body) e
       = HRejected "404 Not found, check your host is correct") /\
    (forall r, axios call = HttpResponse r -> status r = 403%Z ->
       outcome (call_helper h path body) e
       = HRejected "403 Forbidden, please check your API key is correct, or that you setup permissions correctly") /\
    (forall r, axios call = HttpResponse r -> status r = 500%Z ->
       outcome (call_helper h path body) e
       = HRejected "500 Internal Server Error, check your server logs for the error") /\
    (forall r, axios call = HttpResponse r ->
       status r <> 404%Z -> status r <> 403%Z -> status r <> 500%Z ->
       outcome (call_helper h path body) e
       = HResolved (JObj [("data", data r)])) /\
    (forall err, axios call = HttpError err ->
       outcome (call_helper h path body) e = HRejected (message err)).
Proof.
  destruct h; unfold exec, outcome; simpl;
    (eexists; split; [reflexivity|]);
    unfold settle_helper;
    (repeat split; intros r Hr; rewrite Hr; try reflexivity;
     [ intros ->; reflexivity
     | intros ->; reflexivity
     | intros ->; reflexivity
     | intros H1 H2 H3;
       destruct (Z.eqb_spec (status r) 404); [contradiction|];
       destruct (Z.eqb_spec (status r) 403); [contradiction|];
       destruct (Z.eqb_spec (status r) 500); [contradiction|];
       reflexivity ]).
Qed.

(** The request [getServerInformation] issues, whatever [external] is: the
    condition of the conditional is a non-empty string, so the path is
    always ['external/' + id]. *)
Lemma getServerInformation_request (id external : value) (e : process_env) :
  http_calls (trace (exec (getServerInformation id external) e))
  = [(admin_getRequest_site,
      mkRequest GET
        (js_plus (read_env (ADMIN_HOST e)) (js_plus (JStr "external/") id))
        None
        (JObj [("headers", admin_headers (read_env (ADMIN_KEY e)))]))].
Proof.
  unfold exec, getServerInformation, bind.
  cbn [admin_getRequest bind get_env emit ret fst snd env promise trace app].
  assert (Hc : ToBoolean (js_plus (JStr "/api/application/servers/")
                                  (default_arg external (JBool false))) = true).
  { unfold js_plus. cbn [ToPrimitive].
    destruct (ToPrimitive (default_arg external (JBool false))); reflexivity. }
  rewrite Hc.
  destruct (settle_helper _) as [response|msg]; cbn [then_catch];
    [unfold response_attributes, obind;
     destruct (get_prop response "data") as [d|];
     [destruct (get_prop d "attributes")|]|]; reflexivity.
Qed.

(** [getServerInformation] resolves with the attributes object of the
    response. *)
Lemma getServerInformation_resolves
    (id external : value) (e : process_env) (r : response) :
  (forall call, axios call = HttpResponse r) ->
  status r = 200%Z ->
  nullish (data r) = false ->
  promise (exec (getServerInformation id external) e)
  = Resolved (field (data r) "attributes").
Proof.
  intros Hnet Hs Hd.
  unfold exec, getServerInformation, bind.
  cbn [admin_getRequest bind get_env emit ret fst snd env promise trace app].
  rewrite Hnet. unfold settle_helper. rewrite Hs. cbn [Z.eqb Pos.eqb].
  cbn [then_catch response_attributes get_prop lookup String.eqb Ascii.eqb
       Bool.eqb obind].
  unfold field.
  destruct (data r); try discriminate; reflexivity.
Qed.


Lemma default_arg_omitted (d : value) : default_arg JUndefined d = d.
Proof. reflexivity. Qed.

(** Mapping [x => x.attributes] over elements that have properties. *)
Lemma map_attributes (items : list value) :
  Forall (fun x => nullish x = false) items ->
  map_throwing attributes_of items
  = Some (map (fun x => field x "attributes") items).
Proof.
  induction 1 as [|x items Hx _ IH]; simpl.
  - reflexivity.
  - rewrite IH. unfold attributes_of, field.
    destruct x; try discriminate; reflexivity.
Qed.

(** C7, as amended: [getAllServers] issues GET ['/api/application/servers']
    through the helper; when the helper resolves with a response whose body
    has the shape of a listing ([response.data.data] is an array of
    elements other than [undefined] and [null], [response.data.meta] is
    neither [undefined] nor [null]), it resolves with
    [{servers, pagination}], [servers] being the [attributes] of each
    element of [response.data.data] in order and [pagination] being
    [response.data.meta.pagination]; when the helper rejects, it rejects
    with the same error. *)
Theorem getAllServers_unwraps (e : process_env) :
  let call :=
    mkRequest GET
      (js_plus (read_env (ADMIN_HOST e)) (JStr "/api/application/servers"))
      None
      (JObj [("headers", admin_headers (read_env (ADMIN_KEY e)))]) in
  http_calls (trace (exec getAllServers e)) = [(admin_getRequest_site, call)] /\
  (forall response body items meta,
      settle_helper (axios call) = HResolved response ->
      get_prop response "data" = Some body ->
      get_prop body "data" = Some (JArr items) ->
      Forall (fun x => nullish x = false) items ->
      get_prop body "meta" = Some meta ->
      nullish meta = false ->
      promise (exec getAllServers e)
      = Resolved
          (JObj [("servers", JArr (map (fun x => field x "attributes") items));
                 ("pagination", field meta "pagination")])) /\
  (forall error,
      settle_helper (axios call) = HRejected error ->
      promise (exec getAllServers e) = Rejected (RMessage error)).
Proof.
  intros call. unfold exec, getAllServers, bind.
  cbn [admin_getRequest bind get_env emit ret fst snd env promise trace app].
  fold call. split; [|split].
  - destruct (settle_helper (axios call)) as [response|msg];
      cbn [then_catch]; [|reflexivity].
    unfold obind.
    destruct (get_prop response "data") as [d|]; [|reflexivity].
    destruct (get_prop d "data") as [items|]; [|reflexivity].
    destruct (array_map attributes_of items) as [servers|]; [|reflexivity].
    destruct (get_prop d "meta") as [meta|]; [|reflexivity].
    destruct (get_prop meta "pagination"); reflexivity.
  - intros response body items meta Hr Hb Hi Hall Hm Hn.
    rewrite Hr. cbn [then_catch]. unfold obind.
    rewrite Hb, Hi. cbn [array_map]. rewrite (map_attributes items Hall).
    cbn [option_map]. rewrite Hm.
    unfold field.
    destruct meta; try discriminate; reflexivity.
  - intros error Hr. rewrite Hr. reflexivity.
Qed.


(** ** [cleanHost] *)

Lemma append_slash_nonempty (s : string) : ((s ++ "/")%string =? "")%string = false.
Proof. destruct s; reflexivity. Qed.

Lemma cleanHost_drops_slash (s : string) : cleanHost (s ++ "/")%string = s.
Proof.
  induction s as [|c s IH]; simpl.
  - reflexivity.
  - rewrite append_slash_nonempty, andb_false_r, IH. reflexivity.
Qed.

Lemma cleanHost_identity (s : string) :
  ends_with_slash s = false -> cleanHost s = s.
Proof.
  induction s as [|c s IH]; simpl; [reflexivity|].
  destruct (s =? "")%string eqn:E.
  - intros ->. simpl.
    apply String.eqb_eq in E. subst s. reflexivity.
  - intros H. rewrite andb_false_r, IH; auto.
Qed.

(** [ends_with_slash] says what its name says. *)
Lemma ends_with_slash_spec (s : string) :
  ends_with_slash s = true <-> exists t, s = (t ++ "/")%string.
Proof.
  split.
  - induction s as [|c s IH]; simpl; [discriminate|].
    destruct (s =? "")%string eqn:E.
    + intros H. apply String.eqb_eq in E. apply Ascii.eqb_eq in H.
      subst. exists ""%string. reflexivity.
    + intros H. destruct (IH H) as (t & ->).
      exists (String c t). reflexivity.
  - intros (t & ->). induction t as [|c t IH]; simpl; [reflexivity|].
    rewrite append_slash_nonempty. exact IH.
Qed.

(** C10: [setApiKey] stores [cleanHost(host)] as [ADMIN_HOST], where
    [cleanHost] removes exactly one trailing slash and leaves a host
    without trailing slash as it is; the probe request goes to the host as
    given, slash included. *)
Theorem setApiKey_stores_clean_host
    (host : string) (key : value) (e : process_env) :
  ADMIN_HOST (env (exec (setApiKey (JStr host) key) e))
  = Some (cleanHost host) /\
  (forall s, host = (s ++ "/")%string -> cleanHost host = s) /\
  (ends_with_slash host = false -> cleanHost host = host) /\
  exists call,
    http_calls (trace (exec (setApiKey (JStr host) key) e))
    = [(setApiKey_site, call)] /\
    req_url call = JStr (host ++ "/api/application/users")%string.
Proof.
  split; [|split; [|split]].
  - unfold exec, setApiKey, bind.
    cbn [fst snd get_env set_env emit env promise trace ret app
         ADMIN_HOST ADMIN_KEY].
    destruct (axios _) as [res|err]; cbn [fst snd resolve trace];
      [destruct (strict_equals_num _ _)|destruct (loose_equals_num _ _)];
      reflexivity.
  - intros s ->. apply cleanHost_drops_slash.
  - apply cleanHost_identity.
  - unfold exec, setApiKey, bind.
    cbn [fst snd get_env set_env emit env promise trace ret app ToString].
    eexists. split.
    + destruct (axios _) as [res|err]; cbn [fst snd resolve trace];
        [destruct (strict_equals_num _ _)|destruct (loose_equals_num _ _)];
        reflexivity.
    + reflexivity.
Qed.

(** ** Running an endpoint function step by step *)

(** A helper call, written out: the request it builds from the stored
    credentials, appended to the trace, and the outcome of that request. *)
Lemma call_helper_runs (h : helper) (path body : value) (st : state) :
  call_helper h path body st
  = (settle_helper (axios (helper_request h (env st) path body)),
     mkState (env st) (promise st)
             (trace st ++ [EvHttp (helper_site h)
                             (helper_request h (env st) path body)])).
Proof. destruct h; reflexivity. Qed.

(** A function that is a table of checks followed by a core runs the core
    in the state the table leaves. *)
Lemma exec_split (m : M unit) (ss : list step) (core : M unit)
    (e : process_env) :
  (forall st, m st = (run_steps ss ;; core) st) ->
  exec m e
  = snd (core (mkState e (verdict (checks_of ss)) (step_events ss))).
Proof.
  intros H. unfold exec. rewrite H. unfold bind. rewrite run_steps_spec.
  reflexivity.
Qed.

Lemma console_logs_app (t u : list event) :
  console_logs (t ++ u) = console_logs t ++ console_logs u.
Proof.
  induction t as [|[] t IH]; simpl; rewrite ?IH; reflexivity.
Qed.

Lemma string_app_assoc (a b c : string) :
  ((a ++ b) ++ c)%string = (a ++ (b ++ c))%string.
Proof. induction a as [|x a IH]; simpl; [|rewrite IH]; reflexivity. Qed.

Lemma js_plus_string_l (a : string) (v : value) :
  js_plus (JStr a) v = JStr (a ++ ToString (ToPrimitive v))%string.
Proof. unfold js_plus. cbn [ToPrimitive]. destruct (ToPrimitive v); reflexivity. Qed.

Lemma js_plus_env_string (x : option string) (p : string) :
  js_plus (read_env x) (JStr p) = JStr (env_string x ++ p)%string.
Proof. destruct x; reflexivity. Qed.

Ltac endpoint_core c :=
  let body :=
    eval cbv beta iota zeta delta
      [invoke getAllServers getServerInformation getAllDatabases getDatabase
       createDatabase createServer suspendServer unsuspendServer
       reinstallServer rebuildServer deleteServer updateServerDetails
       updateServerBuildConfiguration] in (invoke c) in
  core_of body.

Ltac splits_by_reflexivity :=
  let st := fresh "st" in
  intros st;
  first [ reflexivity
        | cbv beta iota zeta delta [invoke createServer validation_steps];
          match goal with
          | |- context [Note (negb ?b && _) _] => destruct b
          end; reflexivity ].

(** Replace the run of [invoke c] by the run of its core after its table. *)
Ltac split_run c e :=
  let k := endpoint_core c in
  rewrite (exec_split (invoke c) (validation_steps c) k e)
    by splits_by_reflexivity.

Ltac run_helper :=
  unfold bind;
  cbn [bind admin_getRequest admin_deleteRequest admin_patchRequest
       admin_postRequest get_env emit ret fst snd env promise trace
       default_arg].

(** Case analysis on everything a pair of handlers looks at. *)
Ltac run_handlers :=
  cbn [then_catch]; cbv beta iota; unfold response_attributes, obind;
  repeat match goal with
         | |- context [match get_prop ?a ?b with _ => _ end] =>
             destruct (get_prop a b)
         | |- context [match array_map ?f ?a with _ => _ end] =>
             destruct (array_map f a)
         | |- context [if includes ?a ?b then _ else _] =>
             destruct (includes a b)
         | _ => progress cbv beta
         end;
  cbn [resolve reject ret snd trace promise env settle].

Ltac count_calls :=
  rewrite ?http_calls_app, ?http_calls_step_events;
  cbn [http_calls app]; try reflexivity.

(** X1: Every endpoint function hands the helper's rejection on: when the
    arguments pass validation and the helper rejects with a message, the
    promise rejects with that very message; only [createDatabase] swaps
    a message that contains ["403"] for its own. *)
Theorem helper_rejection_propagates
    (c : endpoint) (e : process_env) :
  first_failure (validation_checks c) = None ->
  exists site call,
    http_calls (trace (exec (invoke c) e)) = [(site, call)] /\
    forall msg,
      settle_helper (axios call) = HRejected msg ->
      (is_createDatabase c = true -> includes msg "403" = false) ->
      promise (exec (invoke c) e) = Rejected (RMessage msg).
Proof.
  intros Hvalid. unfold validation_checks in Hvalid.
  destruct c;
    match goal with
    | |- context [exec (invoke ?c) ?e] => split_run c e
    end;
    unfold verdict; rewrite Hvalid; run_helper;
    (eexists _, _; split;
     [ destruct (settle_helper _); run_handlers; count_calls
     | intros msg Hmsg Hdb; rewrite Hmsg; cbn [then_catch]; cbv beta iota;
       try rewrite (Hdb eq_refl); reflexivity ]).
Qed.

(** ** Where requests go and what they carry *)

Lemma admin_headers_bearer (key : option string) :
  admin_headers (read_env key) = bearer_headers key.
Proof. destruct key; reflexivity. Qed.

Lemma prefix_append (a s : string) : prefix a (a ++ s)%string = true.
Proof.
  induction a as [|c a IH]; simpl.
  - destruct s; reflexivity.
  - destruct (ascii_dec c c); [exact IH|congruence].
Qed.

Lemma invoke_request_shape (c : endpoint) (e : process_env) :
  exists site call path,
    http_calls (trace (exec (invoke c) e)) = [(site, call)] /\
    req_url call = JStr (env_string (ADMIN_HOST e) ++ path)%string /\
    get_prop (req_config call) "headers"
    = Some (bearer_headers (ADMIN_KEY e)) /\
    prefix (if is_getServerInformation c then "external/"
            else "/api/application/servers") path = true.
Proof.
  destruct c;
    match goal with
    | |- context [exec (invoke ?c) ?e] => split_run c e
    end;
    run_helper;
    eexists _, _, _;
    (split; [destruct (settle_helper _); run_handlers; count_calls|]);
    cbn [req_url req_config];
    (split;
     [ rewrite ?js_plus_string_l;
       cbn [ToPrimitive ToString ToBoolean String.eqb negb append];
       rewrite ?js_plus_string_l;
       cbn [ToPrimitive ToString append];
       rewrite js_plus_env_string; reflexivity
     | split;
       [ rewrite admin_headers_bearer; reflexivity
       | cbn [is_getServerInformation];
         first [ exact (prefix_append "external/" _)
               | exact (prefix_append "/api/application/servers" _) ] ] ]).
Qed.

(** X2: Every request of an endpoint function goes to the stored host followed
    by a path under ['/api/application/servers'] (for
    [getServerInformation], a path that starts with ['external/']), and
    carries the three headers with ['Bearer ' + key]; a credential that was
    never stored appears as the text ['undefined']. *)
Theorem endpoint_requests_carry_credentials
    (c : endpoint) (e : process_env) :
  exists site call path,
    http_calls (trace (exec (invoke c) e)) = [(site, call)] /\
    req_url call = JStr (env_string (ADMIN_HOST e) ++ path)%string /\
    get_prop (req_config call) "headers"
    = Some (bearer_headers (ADMIN_KEY e)) /\
    prefix (if is_getServerInformation c then "external/"
            else "/api/application/servers") path = true.
Proof. apply invoke_request_shape. Qed.

Lemma setApiKey_env (host : string) (key : value) (e : process_env) :
  env (exec (setApiKey (JStr host) key) e)
  = mkEnv (Some (cleanHost host)) (Some (ToString key)).
Proof.
  unfold exec, setApiKey, bind.
  cbn [fst snd get_env set_env emit env promise trace ret app
       ADMIN_HOST ADMIN_KEY].
  destruct (axios _) as [res|err]; cbn [fst snd resolve trace];
    [destruct (strict_equals_num _ _)|destruct (loose_equals_num _ _)];
    reflexivity.
Qed.

(** X3: [setApiKey] then an endpoint function: whatever the probe of
    [setApiKey] answered, the next request goes to [cleanHost(host)]
    followed by the path, with ['Bearer ' + key]. *)
Theorem stored_credentials_reach_requests
    (host : string) (key : value) (e : process_env) (c : endpoint) :
  exists site call path,
    http_calls
      (trace (exec (invoke c) (env (exec (setApiKey (JStr host) key) e))))
    = [(site, call)] /\
    req_url call = JStr (cleanHost host ++ path)%string /\
    get_prop (req_config call) "headers"
    = Some (JObj [("Authorization", JStr ("Bearer " ++ ToString key)%string);
                  ("Content-Type", JStr "application/json");
                  ("Accept", JStr "Application/vnd.pterodactyl.v1+json")]) /\
    prefix (if is_getServerInformation c then "external/"
            else "/api/application/servers") path = true.
Proof.
  rewrite setApiKey_env.
  apply (invoke_request_shape c
           (mkEnv (Some (cleanHost host)) (Some (ToString key)))).
Qed.

(** ** What the handlers make of the helper's answer *)

Lemma console_logs_step_events (ss : list step) :
  console_logs (step_events ss) = printed_notes ss.
Proof.
  induction ss as [|[[] ?|[] ?] ss IH]; simpl; rewrite ?IH; reflexivity.
Qed.

(** X4: The five functions that act on a server and return no resource:
    when the ID passes the check, each sends its request (POST with the
    empty object as body, or DELETE without body), resolves with its fixed
    text whatever the response body is, and rejects with the helper's
    message. *)
Theorem server_actions_announce (internal_id : value) (e : process_env) :
  isNaN internal_id = false ->
  let server :=
    (env_string (ADMIN_HOST e) ++ "/api/application/servers/"
       ++ text_of internal_id)%string in
  announces (suspendServer internal_id) e POST
            (server ++ "/suspend")%string (Some (JObj []))
            "Successfully suspended the server" /\
  announces (unsuspendServer internal_id) e POST
            (server ++ "/unsuspend")%string (Some (JObj []))
            "Successfully unsuspended the server" /\
  announces (reinstallServer internal_id) e POST
            (server ++ "/reinstall")%string (Some (JObj []))
            "Successfully started to reinstall the server" /\
  announces (rebuildServer internal_id) e POST
            (server ++ "/rebuild")%string (Some (JObj []))
            "Successfully started to rebuild the server" /\
  announces (deleteServer internal_id) e DELETE server None
            "Successfully deleted the server".
Proof.
  intros Hid server. subst server.
  assert (Hurl : forall s,
             js_plus (read_env (ADMIN_HOST e))
               (js_plus (js_plus (JStr "/api/application/servers/") internal_id)
                        (JStr s))
             = JStr ((env_string (ADMIN_HOST e) ++ "/api/application/servers/"
                        ++ text_of internal_id) ++ s)%string).
  { intros s. rewrite !js_plus_string_l. cbn [ToPrimitive ToString].
    rewrite js_plus_env_string. unfold text_of.
    rewrite !string_app_assoc. reflexivity. }
  assert (Hdel :
             js_plus (read_env (ADMIN_HOST e))
               (js_plus (JStr "/api/application/servers/") internal_id)
             = JStr (env_string (ADMIN_HOST e) ++ "/api/application/servers/"
                       ++ text_of internal_id)%string).
  { rewrite !js_plus_string_l. rewrite js_plus_env_string. reflexivity. }
  repeat match goal with |- _ /\ _ => split end;
    unfold announces, exec, suspendServer, unsuspendServer, reinstallServer,
      rebuildServer, deleteServer;
    unfold bind at 1; unfold when; rewrite Hid;
    run_helper; cbn [ret snd fst];
    rewrite ?Hurl, ?Hdel;
    (eexists _, _; split;
     [ destruct (settle_helper _); run_handlers; reflexivity |]);
    (split; [reflexivity|]); (split; [reflexivity|]);
    (split; [reflexivity|]);
    (split; [intros r Hr|intros msg Hr]); rewrite Hr; reflexivity.
Qed.

(** X5: The six functions that return one resource: when the arguments pass
    validation and the helper resolves with a body that is neither
    [undefined] nor [null], the promise resolves with the [attributes] of
    the body, as they are or as [{server: attributes}]; a body without that
    key gives [undefined], not a rejection. *)
Theorem resource_functions_present_attributes
    (c : endpoint) (e : process_env) (wrap : value -> value) :
  presents c = Some wrap ->
  first_failure (validation_checks c) = None ->
  exists site call,
    http_calls (trace (exec (invoke c) e)) = [(site, call)] /\
    forall body,
      settle_helper (axios call) = HResolved (JObj [("data", body)]) ->
      nullish body = false ->
      promise (exec (invoke c) e) = Resolved (wrap (field body "attributes")).
Proof.
  intros Hwrap Hvalid. unfold validation_checks in Hvalid.
  destruct c; try discriminate Hwrap;
    injection Hwrap as <-;
    match goal with
    | |- context [exec (invoke ?c) ?e] => split_run c e
    end;
    unfold verdict; rewrite Hvalid; run_helper;
    (eexists _, _; split;
     [ destruct (settle_helper _); run_handlers; count_calls
     | intros body Hbody Hnn; rewrite Hbody;
       cbn [then_catch]; cbv beta iota;
       unfold response_attributes, obind, field;
       cbn [get_prop lookup String.eqb Ascii.eqb Bool.eqb];
       destruct body; try discriminate Hnn; reflexivity ]).
Qed.

(** X6: With a body that is [undefined] or [null], reading [attributes] throws
    inside the [.then] handler: every resource function but
    [createDatabase] rejects with that TypeError. *)
Theorem resource_functions_reject_empty_body
    (c : endpoint) (e : process_env) (wrap : value -> value) :
  presents c = Some wrap ->
  is_createDatabase c = false ->
  first_failure (validation_checks c) = None ->
  exists site call,
    http_calls (trace (exec (invoke c) e)) = [(site, call)] /\
    forall body,
      settle_helper (axios call) = HResolved (JObj [("data", body)]) ->
      nullish body = true ->
      promise (exec (invoke c) e) = Rejected RTypeError.
Proof.
  intros Hwrap Hdb Hvalid. unfold validation_checks in Hvalid.
  destruct c; try discriminate Hwrap; try discriminate Hdb;
    match goal with
    | |- context [exec (invoke ?c) ?e] => split_run c e
    end;
    unfold verdict; rewrite Hvalid; run_helper;
    (eexists _, _; split;
     [ destruct (settle_helper _); run_handlers; count_calls
     | intros body Hbody Hnn; rewrite Hbody;
       cbn [then_catch]; cbv beta iota;
       unfold response_attributes, obind;
       cbn [get_prop lookup String.eqb Ascii.eqb Bool.eqb];
       destruct body; try discriminate Hnn; reflexivity ]).
Qed.

(** X7: [createDatabase] and the helper's rejections: a message that contains
    ["403"] (the helper's own message for status 403 does) is replaced by
    the function's longer 403 message. *)
Theorem createDatabase_replaces_403
    (internal_id database host remote : value) (e : process_env) :
  first_failure
    (validation_checks (CreateDatabase internal_id database host remote))
  = None ->
  exists call,
    http_calls (trace (exec (createDatabase internal_id database host remote) e))
    = [(admin_postRequest_site, call)] /\
    req_body call
    = Some (JObj [("database", database); ("remote", remote); ("host", host)]) /\
    (forall msg,
        settle_helper (axios call) = HRejected msg ->
        includes msg "403" = true ->
        promise (exec (createDatabase internal_id database host remote) e)
        = Rejected (RMessage createDatabase_403)) /\
    (forall r,
        axios call = HttpResponse r -> status r = 403%Z ->
        promise (exec (createDatabase internal_id database host remote) e)
        = Rejected (RMessage createDatabase_403)).
Proof.
  intros Hvalid. unfold validation_checks in Hvalid.
  change (createDatabase internal_id database host remote)
    with (invoke (CreateDatabase internal_id database host remote)).
  match goal with
  | |- context [exec (invoke ?c) ?e] => split_run c e
  end.
  unfold verdict; rewrite Hvalid; run_helper.
  eexists. split; [|split; [|split]].
  - destruct (settle_helper _); run_handlers; count_calls.
  - reflexivity.
  - intros msg Hmsg H403. rewrite Hmsg. cbn [then_catch]. cbv beta iota.
    rewrite H403. reflexivity.
  - intros r Hr Hs. rewrite Hr. unfold settle_helper. rewrite Hs.
    reflexivity.
Qed.

(** X8: [createDatabase] and a body that is [undefined] or [null]: the [.then]
    handler throws, the [.catch] handler throws in turn on
    [error.includes], and the promise the caller holds is never settled. *)
Theorem createDatabase_leaves_promise_pending
    (internal_id database host remote : value) (e : process_env) :
  first_failure
    (validation_checks (CreateDatabase internal_id database host remote))
  = None ->
  exists call,
    http_calls (trace (exec (createDatabase internal_id database host remote) e))
    = [(admin_postRequest_site, call)] /\
    forall body,
      settle_helper (axios call) = HResolved (JObj [("data", body)]) ->
      nullish body = true ->
      promise (exec (createDatabase internal_id database host remote) e)
      = Pending.
Proof.
  intros Hvalid. unfold validation_checks in Hvalid.
  change (createDatabase internal_id database host remote)
    with (invoke (CreateDatabase internal_id database host remote)).
  match goal with
  | |- context [exec (invoke ?c) ?e] => split_run c e
  end.
  unfold verdict; rewrite Hvalid; run_helper.
  eexists. split.
  - destruct (settle_helper _); run_handlers; count_calls.
  - intros body Hbody Hnn. rewrite Hbody. cbn [then_catch]. cbv beta iota.
    unfold response_attributes, obind.
    cbn [get_prop lookup String.eqb Ascii.eqb Bool.eqb].
    destruct body; try discriminate Hnn; reflexivity.
Qed.

(** X9: [getAllDatabases]: when the ID passes the check and the helper
    resolves with a listing, the promise resolves with [{databases}], the
    [attributes] of each element of [response.data.data] in order. *)
Theorem getAllDatabases_unwraps (internal_id : value) (e : process_env) :
  isNaN internal_id = false ->
  exists call,
    http_calls (trace (exec (getAllDatabases internal_id) e))
    = [(admin_getRequest_site, call)] /\
    req_url call
    = JStr (env_string (ADMIN_HOST e) ++ "/api/application/servers/"
              ++ text_of internal_id ++ "/databases")%string /\
    (forall body items,
        settle_helper (axios call) = HResolved (JObj [("data", body)]) ->
        get_prop body "data" = Some (JArr items) ->
        Forall (fun x => nullish x = false) items ->
        promise (exec (getAllDatabases internal_id) e)
        = Resolved
            (JObj [("databases",
                    JArr (map (fun x => field x "attributes") items))])) /\
    (forall body,
        settle_helper (axios call) = HResolved (JObj [("data", body)]) ->
        get_prop body "data" = Some (JArr []) ->
        promise (exec (getAllDatabases internal_id) e)
        = Resolved (JObj [("databases", JArr [])])).
Proof.
  intros Hid.
  assert (Hall : forall body items,
             get_prop body "data" = Some (JArr items) ->
             Forall (fun x => nullish x = false) items ->
             then_catch (HResolved (JObj [("data", body)]))
               (fun response =>
                  obind (get_prop response "data") (fun d =>
                  obind (get_prop d "data") (fun items =>
                  obind (array_map attributes_of items) (fun databases =>
                  Some (resolve (JObj [("databases", databases)]))))))
               (fun error => reject error)
             = resolve (JObj [("databases",
                              JArr (map (fun x => field x "attributes") items))])).
  { intros body items Hitems Hnn. cbn [then_catch]. unfold obind.
    cbn [get_prop lookup String.eqb Ascii.eqb Bool.eqb].
    rewrite Hitems. cbn [array_map]. rewrite (map_attributes items Hnn).
    reflexivity. }
  unfold exec, getAllDatabases. unfold bind at 1. unfold when. rewrite Hid.
  run_helper. cbn [ret snd fst].
  eexists. split; [|split; [|split]].
  - destruct (settle_helper _); run_handlers; reflexivity.
  - cbn [req_url]. rewrite !js_plus_string_l. cbn [ToPrimitive ToString].
    rewrite js_plus_env_string. unfold text_of.
    rewrite !string_app_assoc. reflexivity.
  - intros body items Hbody Hitems Hnn. rewrite Hbody.
    rewrite (Hall body items Hitems Hnn). reflexivity.
  - intros body Hbody Hitems. rewrite Hbody.
    rewrite (Hall body [] Hitems (Forall_nil _)). reflexivity.
Qed.

(** The site of the one call of [createServer]. *)
Lemma createServer_site
    (name description userID eggID startup dockerImage allocationID
     startOnComplete environment memory disk : value) (e : process_env) :
  exists call,
    http_calls
      (trace
         (exec (createServer name description userID eggID startup
                  dockerImage allocationID startOnComplete environment
                  memory disk JUndefined JUndefined JUndefined JUndefined
                  JUndefined JUndefined JUndefined JUndefined JUndefined) e))
    = [(admin_postRequest_site, call)].
Proof.
  change (createServer _ _ _ _ _ _ _ _ _ _ _ _ _ _ _ _ _ _ _ _)
    with (invoke (CreateServer name description userID eggID startup
                    dockerImage allocationID startOnComplete environment
                    memory disk JUndefined JUndefined JUndefined JUndefined
                    JUndefined JUndefined JUndefined JUndefined JUndefined)).
  match goal with
  | |- context [exec (invoke ?c) ?e] => split_run c e
  end.
  run_helper. eexists.
  destruct (settle_helper _); run_handlers; count_calls.
Qed.

(** ** Console output and validation, seen from the trace *)

Lemma invoke_console (c : endpoint) (e : process_env) :
  console_logs (trace (exec (invoke c) e)) = printed_notes (validation_steps c).
Proof.
  destruct c;
    match goal with
    | |- context [exec (invoke ?c) ?e] => split_run c e
    end;
    run_helper; destruct (settle_helper _); run_handlers;
    rewrite ?console_logs_app, console_logs_step_events;
    cbn [console_logs app]; rewrite ?app_nil_r; reflexivity.
Qed.

(** X10: The only thing the client ever prints is the warning of [createServer]
    about [io], and it prints it exactly when [io] is a number other than
    500; with [io] omitted nothing is printed. *)
Theorem console_output_is_the_io_warning :
  (forall (c : endpoint) (e : process_env),
      is_createServer c = false ->
      console_logs (trace (exec (invoke c) e)) = []) /\
  (forall (name description userID eggID startup dockerImage allocationID
           startOnComplete environment memory disk cpu swap io
           additionalAllocations databases allocations deploy skipScripts
           oomDisabled : value) (e : process_env),
      console_logs
        (trace
           (exec (createServer name description userID eggID startup
                    dockerImage allocationID startOnComplete environment
                    memory disk cpu swap io additionalAllocations databases
                    allocations deploy skipScripts oomDisabled) e))
      = if (typeof (default_arg io (JNum (num 500))) =? "number")%string
           && negb (strict_equals_num (default_arg io (JNum (num 500)))
                                      (num 500))
        then ["Block IO proportion is not set to 500, I sure hope you know what you are doing"%string]
        else []) /\
  (forall (name description userID eggID startup dockerImage allocationID
           startOnComplete environment memory disk cpu swap
           additionalAllocations databases allocations deploy skipScripts
           oomDisabled : value) (e : process_env),
      console_logs
        (trace
           (exec (createServer name description userID eggID startup
                    dockerImage allocationID startOnComplete environment
                    memory disk cpu swap JUndefined additionalAllocations
                    databases allocations deploy skipScripts oomDisabled) e))
      = []).
Proof.
  split; [|split].
  - intros c e Hc. rewrite invoke_console.
    destruct c; try discriminate Hc; reflexivity.
  - intros. 
    change (createServer name description userID eggID startup dockerImage
              allocationID startOnComplete environment memory disk cpu swap
              io additionalAllocations databases allocations deploy
              skipScripts oomDisabled)
      with (invoke (CreateServer name description userID eggID startup
                      dockerImage allocationID startOnComplete environment
                      memory disk cpu swap io additionalAllocations
                      databases allocations deploy skipScripts oomDisabled)).
    rewrite invoke_console. cbn [validation_steps]. cbv zeta.
    cbn [printed_notes]. unfold ne. rewrite negb_involutive.
    destruct (_ && _); reflexivity.
  - intros.
    change (createServer name description userID eggID startup dockerImage
              allocationID startOnComplete environment memory disk cpu swap
              JUndefined additionalAllocations databases allocations deploy
              skipScripts oomDisabled)
      with (invoke (CreateServer name description userID eggID startup
                      dockerImage allocationID startOnComplete environment
                      memory disk cpu swap JUndefined additionalAllocations
                      databases allocations deploy skipScripts oomDisabled)).
    rewrite invoke_console. reflexivity.
Qed.

Lemma step_events_no_call (ss : list step) (site : call_site)
    (call : request) (rest : list event) :
  step_events ss <> EvHttp site call :: rest.
Proof.
  intros H. pose proof (http_calls_step_events ss) as Hc.
  rewrite H in Hc. discriminate Hc.
Qed.

(** The first thing a call does is its HTTP request exactly when its
    table leaves nothing in the trace. *)
Lemma first_event_is_call (c : endpoint) (e : process_env) :
  (exists site call rest, trace (exec (invoke c) e) = EvHttp site call :: rest)
  <-> step_events (validation_steps c) = [].
Proof.
  destruct (invoke_shape c e) as (_ & _ & site & call & rest & _ & Ht & _).
  rewrite Ht. split.
  - intros (site' & call' & rest' & H).
    destruct (step_events (validation_steps c)) as [|ev evs] eqn:E;
      [reflexivity|].
    simpl in H. injection H as -> _.
    exfalso. exact (step_events_no_call _ _ _ _ E).
  - intros ->. exists site, call, rest. reflexivity.
Qed.

(** X11: Which arguments [createDatabase] lets through without a rejection:
    an ID that is not NaN, a non-empty database name, a host that is a
    number other than 0 and NaN (an integer is not required), and a
    non-empty remote rule. *)
Theorem createDatabase_accepts
    (internal_id database host remote : value) (e : process_env) :
  (exists site call rest,
      trace (exec (createDatabase internal_id database host remote) e)
      = EvHttp site call :: rest)
  <->
  (isNaN internal_id = false /\
   (exists s, database = JStr s /\ s <> ""%string) /\
   (exists n, host = JNum n /\ ToBoolean (JNum n) = true) /\
   (exists s, remote = JStr s /\ s <> ""%string)).
Proof.
  change (createDatabase internal_id database host remote)
    with (invoke (CreateDatabase internal_id database host remote)).
  rewrite first_event_is_call.
  cbn [validation_steps]. unfold internal_id_check.
  assert (Hstr : forall v,
             negb (ToBoolean v) || ne (typeof v) "string" = false
             <-> exists s, v = JStr s /\ s <> ""%string).
  { intros v. split.
    - intros H. apply orb_false_elim in H. destruct H as [Ha Hb].
      destruct v; try (cbn in Hb; discriminate Hb).
      exists s. split; [reflexivity|]. intros ->. discriminate Ha.
    - intros (s & -> & Hs). cbn [ToBoolean typeof].
      rewrite negb_involutive.
      destruct (String.eqb_spec s ""); [contradiction|reflexivity]. }
  assert (Hnum : negb (ToBoolean host) || ne (typeof host) "number" = false
                 <-> exists n, host = JNum n /\ ToBoolean (JNum n) = true).
  { split.
    - intros H. apply orb_false_elim in H. destruct H as [Ha Hb].
      destruct host; try (cbn in Hb; discriminate Hb).
      apply negb_false_iff in Ha. exists n. auto.
    - intros (n & -> & Hn). rewrite Hn. reflexivity. }
  rewrite <- (Hstr database), <- (Hstr remote), <- Hnum.
  destruct (isNaN internal_id);
    destruct (negb (ToBoolean database) || ne (typeof database) "string");
    destruct (negb (ToBoolean host) || ne (typeof host) "number");
    destruct (negb (ToBoolean remote) || ne (typeof remote) "string");
    cbn [step_events]; split; try discriminate; try tauto;
    intros (? & ? & ? & ?); discriminate.
Qed.

(** X12: [createServer] called with its eleven required arguments only, each of
    the documented type: every default satisfies its own check, so nothing
    is rejected or printed before the POST. *)
Theorem createServer_required_arguments_suffice
    (name description userID eggID startup dockerImage allocationID
     startOnComplete environment memory disk : value) (e : process_env) :
  typeof name = "string"%string ->
  typeof userID = "number"%string ->
  typeof eggID = "number"%string ->
  typeof startup = "string"%string ->
  typeof dockerImage = "string"%string ->
  typeof allocationID = "number"%string ->
  typeof startOnComplete = "boolean"%string ->
  typeof environment = "object"%string ->
  typeof memory = "number"%string ->
  typeof disk = "number"%string ->
  exists call rest,
    trace
      (exec (createServer name description userID eggID startup dockerImage
               allocationID startOnComplete environment memory disk
               JUndefined JUndefined JUndefined JUndefined JUndefined
               JUndefined JUndefined JUndefined JUndefined) e)
    = EvHttp admin_postRequest_site call :: rest.
Proof.
  intros H1 H2 H3 H4 H5 H6 H7 H8 H9 H10.
  set (c := CreateServer name description userID eggID startup dockerImage
              allocationID startOnComplete environment memory disk
              JUndefined JUndefined JUndefined JUndefined JUndefined
              JUndefined JUndefined JUndefined JUndefined).
  change (createServer _ _ _ _ _ _ _ _ _ _ _ _ _ _ _ _ _ _ _ _)
    with (invoke c).
  assert (Hsteps : step_events (validation_steps c) = []).
  { subst c. cbn [validation_steps]. cbv zeta.
    rewrite H1, H2, H3, H4, H5, H6, H7, H8, H9, H10. reflexivity. }
  destruct (invoke_shape c e) as (_ & _ & site & call & rest & _ & Ht & _).
  destruct (createServer_site name description userID eggID startup
              dockerImage allocationID startOnComplete environment
              memory disk e) as (call' & Hc).
  change (createServer _ _ _ _ _ _ _ _ _ _ _ _ _ _ _ _ _ _ _ _)
    with (invoke c) in Hc.
  rewrite Ht, Hsteps in *. cbn [app http_calls] in *.
  exists call, rest. congruence.
Qed.

(** ** Payloads of the update functions *)

Lemma lookup_in_nodup (obj : list (string * value)) (k : string) (v : value) :
  NoDup (map fst obj) -> In (k, v) obj -> lookup k obj = Some v.
Proof.
  induction obj as [|[k' v'] obj IH]; simpl; intros Hnd Hin; [contradiction|].
  inversion Hnd as [|? ? Hnotin Hnd']; subst.
  destruct Hin as [Heq|Hin].
  - injection Heq as -> ->. rewrite String.eqb_refl. reflexivity.
  - destruct (String.eqb_spec k' k) as [->|_].
    + exfalso. apply Hnotin. apply (in_map fst) in Hin. exact Hin.
    + auto.
Qed.


Lemma set_prop_fresh (k : string) (v : value) (obj : list (string * value)) :
  ~ In k (map fst obj) -> set_prop k v obj = obj ++ [(k, v)].
Proof.
  induction obj as [|[k' v'] obj IH]; simpl; intros H; [reflexivity|].
  destruct (String.eqb_spec k' k) as [->|_].
  - exfalso. apply H. left. reflexivity.
  - rewrite IH; [reflexivity|]. intros Hin. apply H. right. exact Hin.
Qed.

Lemma fold_set_prop_fresh (f : string -> value) (ks : list string)
    (acc : list (string * value)) :
  NoDup ks ->
  (forall k, In k ks -> ~ In k (map fst acc)) ->
  fold_left (fun res key => set_prop key (f key) res) ks acc
  = acc ++ map (fun k => (k, f k)) ks.
Proof.
  revert acc. induction ks as [|k ks IH]; simpl; intros acc Hnd Hfresh.
  - rewrite app_nil_r. reflexivity.
  - inversion Hnd as [|? ? Hk Hnd']; subst.
    rewrite set_prop_fresh by (apply Hfresh; left; reflexivity).
    rewrite IH; [rewrite <- app_assoc; reflexivity|exact Hnd'|].
    intros k' Hin. rewrite map_app, in_app_iff. simpl.
    intros [H|[H|[]]].
    + apply (Hfresh k'); [right; exact Hin|exact H].
    + subst k'. contradiction.
Qed.

Lemma filter_keys_values (at_key : string -> value) (p : value -> bool)
    (l : list (string * value)) :
  (forall kv, In kv l -> at_key (fst kv) = snd kv) ->
  map (fun k => (k, at_key k)) (filter (fun k => p (at_key k)) (map fst l))
  = filter (fun kv => p (snd kv)) l.
Proof.
  induction l as [|[k v] l IH]; simpl; intros H; [reflexivity|].
  assert (Hk : at_key k = v) by (apply (H (k, v)); left; reflexivity).
  rewrite Hk.
  destruct (p v); simpl; rewrite ?Hk, IH; auto.
Qed.

Lemma filterObject_is_filter (obj : list (string * value))
    (predicate : value -> bool) :
  NoDup (map fst obj) ->
  filterObject obj predicate = filter (fun kv => predicate (snd kv)) obj.
Proof.
  intros Hnd. unfold filterObject.
  rewrite fold_set_prop_fresh.
  - simpl. apply filter_keys_values.
    intros [k v] Hin. simpl. rewrite (lookup_in_nodup obj k v Hnd Hin).
    reflexivity.
  - apply NoDup_filter. exact Hnd.
  - intros k _ [].
Qed.


Lemma limits_keys_distinct (memory disk cpu swap io : value) :
  NoDup (map fst [("memory", memory); ("disk", disk); ("cpu", cpu);
                  ("swap", swap); ("io", io)]).
Proof.
  simpl. repeat constructor; simpl; intuition discriminate.
Qed.

(** X14: The payload of [updateServerDetails]: always [name] and [user];
    [external_id] only when it is truthy, [description] only when it is a
    non-empty string.  An empty string therefore cannot clear either
    field. *)
Theorem updateServerDetails_payload
    (internal_id name user external_id description : value)
    (e : process_env) :
  exists call,
    http_calls
      (trace (exec (updateServerDetails internal_id name user external_id
                      description) e))
    = [(admin_patchRequest_site, call)] /\
    req_body call
    = Some
        (JObj
           ([("name", name); ("user", user)]
            ++ (if ToBoolean external_id
                then [("external_id", external_id)] else [])
            ++ (if ToBoolean description
                   && (typeof description =? "string")%string
                then [("description", description)] else []))).
Proof.
  change (updateServerDetails internal_id name user external_id description)
    with (invoke (UpdateServerDetails internal_id name user external_id
                    description)).
  match goal with
  | |- context [exec (invoke ?c) ?e] => split_run c e
  end.
  run_helper. eexists. split.
  - destruct (settle_helper _); run_handlers; count_calls.
  - cbn [req_body].
    destruct (ToBoolean external_id);
      destruct (ToBoolean description && (typeof description =? "string")%string);
      reflexivity.
Qed.

Lemma updateServerBuildConfiguration_request
    (internal_id allocation_id database_limit allocation_limit memory disk
     cpu swap io add_allocations remove_allocations oom_disabled : value)
    (e : process_env) :
  exists call,
    http_calls
      (trace (exec (updateServerBuildConfiguration internal_id allocation_id
                      database_limit allocation_limit memory disk cpu swap
                      io add_allocations remove_allocations oom_disabled) e))
    = [(admin_patchRequest_site, call)] /\
    req_body call
    = Some
        (JObj
           ([("allocation_id", allocation_id);
             ("feature_limits",
              JArr (filter (fun v => ToBoolean v
                                     && (typeof v =? "number")%string)
                           [database_limit; allocation_limit]))]
            ++ (if ToBoolean memory || ToBoolean disk || ToBoolean cpu
                   || ToBoolean swap || ToBoolean io
                then [("limits",
                       JObj (filter
                               (fun kv => (typeof (snd kv) =? "number")%string)
                               [("memory", memory); ("disk", disk);
                                ("cpu", cpu); ("swap", swap); ("io", io)]))]
                else [])
            ++ (if truthy_length add_allocations
                then [("add_allocations", add_allocations)] else [])
            ++ (if truthy_length remove_allocations
                then [("remove_allocations", remove_allocations)] else [])
            ++ (if (typeof oom_disabled =? "boolean")%string
                then [("oom_disabled", oom_disabled)] else []))).
Proof.
  change (updateServerBuildConfiguration internal_id allocation_id
            database_limit allocation_limit memory disk cpu swap io
            add_allocations remove_allocations oom_disabled)
    with (invoke (UpdateServerBuildConfiguration internal_id allocation_id
                    database_limit allocation_limit memory disk cpu swap io
                    add_allocations remove_allocations oom_disabled)).
  match goal with
  | |- context [exec (invoke ?c) ?e] => split_run c e
  end.
  run_helper. eexists. split.
  - destruct (settle_helper _); run_handlers; count_calls.
  - cbn [req_body].
    rewrite (filterObject_is_filter _ _
               (limits_keys_distinct memory disk cpu swap io)).
    cbn [filter].
    destruct (ToBoolean database_limit && (typeof database_limit =? "number")%string);
      destruct (ToBoolean allocation_limit && (typeof allocation_limit =? "number")%string);
      destruct (ToBoolean memory || ToBoolean disk || ToBoolean cpu
                || ToBoolean swap || ToBoolean io);
      destruct (truthy_length add_allocations);
      destruct (truthy_length remove_allocations);
      destruct oom_disabled as [| |[]| | | |]; reflexivity.
Qed.

(** X15: The payload of [updateServerBuildConfiguration]: [allocation_id];
    [feature_limits] as an array of those of the two limits that are
    non-zero numbers; [limits] with the numeric ones among the five
    resource limits, present only when one of the five is truthy;
    [add_allocations] and [remove_allocations] only when non-empty;
    [oom_disabled] only when it is a boolean. *)
Theorem updateServerBuildConfiguration_payload
    (internal_id allocation_id database_limit allocation_limit memory disk
     cpu swap io add_allocations remove_allocations oom_disabled : value)
    (e : process_env) :
  exists call,
    http_calls
      (trace (exec (updateServerBuildConfiguration internal_id allocation_id
                      database_limit allocation_limit memory disk cpu swap
                      io add_allocations remove_allocations oom_disabled) e))
    = [(admin_patchRequest_site, call)] /\
    req_body call
    = Some
        (JObj
           ([("allocation_id", allocation_id);
             ("feature_limits",
              JArr (filter (fun v => ToBoolean v
                                     && (typeof v =? "number")%string)
                           [database_limit; allocation_limit]))]
            ++ (if ToBoolean memory || ToBoolean disk || ToBoolean cpu
                   || ToBoolean swap || ToBoolean io
                then [("limits",
                       JObj (filter
                               (fun kv => (typeof (snd kv) =? "number")%string)
                               [("memory", memory); ("disk", disk);
                                ("cpu", cpu); ("swap", swap); ("io", io)]))]
                else [])
            ++ (if truthy_length add_allocations
                then [("add_allocations", add_allocations)] else [])
            ++ (if truthy_length remove_allocations
                then [("remove_allocations", remove_allocations)] else [])
            ++ (if (typeof oom_disabled =? "boolean")%string
                then [("oom_disabled", oom_disabled)] else []))).
Proof. apply updateServerBuildConfiguration_request. Qed.

(** X16: A build update whose resource limits are all zero (or omitted) sends
    no [limits] at all: no limit can be set to 0 unless another one is
    non-zero. *)
Theorem build_update_drops_all_zero_limits
    (internal_id allocation_id database_limit allocation_limit memory disk
     cpu swap io add_allocations remove_allocations oom_disabled : value)
    (e : process_env) :
  ToBoolean memory = false -> ToBoolean disk = false ->
  ToBoolean cpu = false -> ToBoolean swap = false -> ToBoolean io = false ->
  exists call props,
    http_calls
      (trace (exec (updateServerBuildConfiguration internal_id allocation_id
                      database_limit allocation_limit memory disk cpu swap
                      io add_allocations remove_allocations oom_disabled) e))
    = [(admin_patchRequest_site, call)] /\
    req_body call = Some (JObj props) /\
    lookup "limits" props = None.
Proof.
  intros Hm Hd Hc Hs Hi.
  destruct (updateServerBuildConfiguration_request internal_id allocation_id
              database_limit allocation_limit memory disk cpu swap io
              add_allocations remove_allocations oom_disabled e)
    as (call & Hcalls & Hbody).
  rewrite Hm, Hd, Hc, Hs, Hi in Hbody. cbn [orb app] in Hbody.
  eexists _, _. split; [exact Hcalls|]. split; [exact Hbody|].
  destruct (truthy_length add_allocations);
    destruct (truthy_length remove_allocations);
    destruct (typeof oom_disabled =? "boolean")%string; reflexivity.
Qed.

(** ** Settling *)

Lemma settle_helper_resolves (o : http_outcome) (v : value) :
  settle_helper o = HResolved v -> exists body, v = JObj [("data", body)].
Proof.
  unfold settle_helper. destruct o as [r|err]; [|discriminate].
  destruct (status r =? 404)%Z; [discriminate|].
  destruct (status r =? 403)%Z; [discriminate|].
  destruct (status r =? 500)%Z; [discriminate|].
  intros H. injection H as <-. eexists. reflexivity.
Qed.

(** X18: Provided the HTTP call settles, every endpoint function but
    [createDatabase] settles the promise it returned; [createDatabase]
    leaves it pending only when its [.then] handler threw. *)
Theorem endpoint_promises_settle (c : endpoint) (e : process_env) :
  (is_createDatabase c = false -> promise (exec (invoke c) e) <> Pending) /\
  (promise (exec (invoke c) e) = Pending ->
   exists site call body,
     http_calls (trace (exec (invoke c) e)) = [(site, call)] /\
     settle_helper (axios call) = HResolved (JObj [("data", body)]) /\
     nullish body = true).
Proof.
  assert (H1 : is_createDatabase c = false ->
               promise (exec (invoke c) e) <> Pending).
  { intros Hc.
    destruct c; try discriminate Hc;
      match goal with
      | |- context [exec (invoke ?c) ?e] => split_run c e
      end;
      run_helper; destruct (settle_helper _); run_handlers;
      destruct (verdict _); discriminate. }
  split; [exact H1|].
  intros Hp.
  destruct c; try (exfalso; apply (H1 eq_refl); exact Hp).
  clear H1. revert Hp.
  match goal with
  | |- context [exec (invoke ?c) ?e] => split_run c e
  end.
  run_helper.
  match goal with
  | |- context [settle_helper (axios ?call)] =>
      destruct (settle_helper (axios call)) as [response|msg] eqn:Hh
  end.
  - destruct (settle_helper_resolves _ _ Hh) as (body & ->).
    cbn [then_catch]. cbv beta iota. unfold response_attributes, obind.
    cbn [get_prop lookup String.eqb Ascii.eqb Bool.eqb].
    destruct (nullish body) eqn:Hn.
    + intros _. eexists _, _, body.
      split; [|split; [exact Hh|exact Hn]].
      destruct body; try discriminate Hn;
        cbn [get_prop]; cbv beta iota; cbn [ret snd trace];
        count_calls.
    + destruct body; try discriminate Hn;
        cbn [get_prop resolve snd promise];
        destruct (verdict _); discriminate.
  - cbn [then_catch]. cbv beta iota.
    destruct (includes msg "403"); cbn [reject snd promise];
      destruct (verdict _); discriminate.
Qed.

(** X17: What [setApiKey] reports when its probe fails: the fixed 403 message
    when the error's [status] is the number 403, and the error's own
    message when the error has no [status] or another number. *)
Theorem setApiKey_reports_errors
    (host : string) (key : value) (e : process_env) :
  exists call,
    http_calls (trace (exec (setApiKey (JStr host) key) e))
    = [(setApiKey_site, call)] /\
    (forall msg,
        axios call = HttpError (mkError msg (JNum (num 403))) ->
        promise (exec (setApiKey (JStr host) key) e)
        = Resolved
            (JObj [("loggedIn", JBool false);
                   ("message",
                    JStr "403 Forbidden, please check your API key is valid")])) /\
    (forall msg status,
        axios call = HttpError (mkError msg status) ->
        nullish status = true ->
        promise (exec (setApiKey (JStr host) key) e)
        = Resolved (JObj [("loggedIn", JBool false); ("message", JStr msg)])) /\
    (forall msg n,
        axios call = HttpError (mkError msg (JNum n)) ->
        SFeqb n (num 403) = false ->
        promise (exec (setApiKey (JStr host) key) e)
        = Resolved (JObj [("loggedIn", JBool false); ("message", JStr msg)])).
Proof.
  unfold exec, setApiKey, bind.
  cbn [fst snd get_env set_env emit env promise trace ret app ToString
       response_value strict_equals_num].
  eexists. split; [|split; [|split]].
  - destruct (axios _) as [res|err];
      [|destruct (loose_equals_num _ _)]; reflexivity.
  - intros msg Hnet. rewrite Hnet. reflexivity.
  - intros msg status Hnet Hs. rewrite Hnet.
    destruct status; try discriminate Hs; reflexivity.
  - intros msg n Hnet Hn. rewrite Hnet.
    cbn [err_status message loose_equals_num ToNumber ToPrimitive].
    rewrite Hn. reflexivity.
Qed.

End Client.

(** * Closed instances

    The theorems above, applied with the reference engine and concrete
    networks, and the inputs at which claims of the specification fail as
    they are stated. *)

Local Open Scope list_scope.

(** C1 at concrete responses: a panel answering 404, 403, 500 and 200, and
    an unreachable one, for [admin.getRequest] and [admin.postRequest]. *)
Lemma admin_helpers_map_status_witness :
  outcome (call_helper decimal_StringToNumber decimal_NumberToString
             (panel_status 404) GetRequest (JStr "/api/application/servers")
             JUndefined) stored_credentials
  = HRejected "404 Not found, check your host is correct" /\
  outcome (call_helper decimal_StringToNumber decimal_NumberToString
             (panel_status 403) PostRequest (JStr "/api/application/servers")
             JUndefined) stored_credentials
  = HRejected "403 Forbidden, please check your API key is correct, or that you setup permissions correctly" /\
  outcome (call_helper decimal_StringToNumber decimal_NumberToString
             (panel_status 500) PatchRequest (JStr "/api/application/servers")
             (JObj [])) stored_credentials
  = HRejected "500 Internal Server Error, check your server logs for the error" /\
  outcome (call_helper decimal_StringToNumber decimal_NumberToString
             (panel_status 200) DeleteRequest
             (JStr "/api/application/servers/5") JUndefined)
          stored_credentials
  = HResolved (JObj [("data", JNull)]) /\
  outcome (call_helper decimal_StringToNumber decimal_NumberToString
             (panel_unreachable "connect ECONNREFUSED") GetRequest
             (JStr "/api/application/servers") JUndefined)
          stored_credentials
  = HRejected "connect ECONNREFUSED".
Proof.
  split; [|split; [|split; [|split]]].
  - destruct (admin_helpers_map_status decimal_StringToNumber
                decimal_NumberToString (panel_status 404) GetRequest
                (JStr "/api/application/servers") JUndefined
                stored_credentials) as (call & _ & H & _).
    apply (H (mkResponse 404 JNull)); reflexivity.
  - destruct (admin_helpers_map_status decimal_StringToNumber
                decimal_NumberToString (panel_status 403) PostRequest
                (JStr "/api/application/servers") JUndefined
                stored_credentials) as (call & _ & _ & H & _).
    apply (H (mkResponse 403 JNull)); reflexivity.
  - destruct (admin_helpers_map_status decimal_StringToNumber
                decimal_NumberToString (panel_status 500) PatchRequest
                (JStr "/api/application/servers") (JObj [])
                stored_credentials) as (call & _ & _ & _ & H & _).
    apply (H (mkResponse 500 JNull)); reflexivity.
  - destruct (admin_helpers_map_status decimal_StringToNumber
                decimal_NumberToString (panel_status 200) DeleteRequest
                (JStr "/api/application/servers/5") JUndefined
                stored_credentials) as (call & _ & _ & _ & _ & H & _).
    apply (H (mkResponse 200 JNull)); [reflexivity|discriminate..].
  - destruct (admin_helpers_map_status decimal_StringToNumber
                decimal_NumberToString
                (panel_unreachable "connect ECONNREFUSED") GetRequest
                (JStr "/api/application/servers") JUndefined
                stored_credentials) as (call & _ & _ & _ & _ & _ & H).
    apply (H (mkError "connect ECONNREFUSED" JUndefined)); reflexivity.
Defined.




(** C4 fails on the code: [getServerInformation(5, false)] asks for
    ['external/5'] appended to the host, not for
    ['/api/application/servers/5']; with [external = true] the path is the
    same ['external/5'], not ['/api/application/servers/external/5']. *)
Theorem getServerInformation_path_is_external_only :
  map (fun c => req_url (snd c))
      (http_calls
         (trace (exec (getServerInformation decimal_StringToNumber
                         decimal_NumberToString (panel_answers JNull)
                         (JNum (num 5)) (JBool false))
                      stored_credentials)))
  = [JStr "https://panel.exampleexternal/5"] /\
  map (fun c => req_url (snd c))
      (http_calls
         (trace (exec (getServerInformation decimal_StringToNumber
                         decimal_NumberToString (panel_answers JNull)
                         (JNum (num 5)) (JBool true))
                      stored_credentials)))
  = [JStr "https://panel.exampleexternal/5"] /\
  JStr "https://panel.exampleexternal/5"
  <> js_plus decimal_StringToNumber decimal_NumberToString
       (JStr "https://panel.example")
       (js_plus decimal_StringToNumber decimal_NumberToString
          (JStr "/api/application/servers/") (JNum (num 5))) /\
  JStr "https://panel.exampleexternal/5"
  <> js_plus decimal_StringToNumber decimal_NumberToString
       (JStr "https://panel.example")
       (js_plus decimal_StringToNumber decimal_NumberToString
          (JStr "/api/application/servers/external/") (JNum (num 5))).
Proof.
  rewrite !getServerInformation_request.
  split; [reflexivity|]. split; [reflexivity|].
  split; vm_compute; discriminate.
Qed.

(** C7 as stated fails: a successful response whose body is not a listing
    (here a page of HTML, answered with status 200) makes the [.then]
    handler throw on [response.data.data.map], and the promise rejects with
    that TypeError instead of resolving. *)
Lemma getAllServers_rejects_unexpected_body :
  outcome (admin_getRequest decimal_StringToNumber decimal_NumberToString
             (panel_answers (JStr "<!DOCTYPE html>"))
             (JStr "/api/application/servers")) stored_credentials
  = HResolved (JObj [("data", JStr "<!DOCTYPE html>")]) /\
  promise (exec (getAllServers decimal_StringToNumber decimal_NumberToString
                   (panel_answers (JStr "<!DOCTYPE html>")))
                stored_credentials)
  = Rejected RTypeError /\
  forall v,
    promise (exec (getAllServers decimal_StringToNumber decimal_NumberToString
                     (panel_answers (JStr "<!DOCTYPE html>")))
                  stored_credentials)
    <> Resolved v.
Proof.
  split; [reflexivity|]. split; [reflexivity|]. intros v. discriminate.
Qed.

(** C7, amended, at a listing of two servers, and at an unreachable
    panel. *)
Lemma getAllServers_unwraps_witness :
  promise (exec (getAllServers decimal_StringToNumber decimal_NumberToString
                   (panel_answers two_servers)) stored_credentials)
  = Resolved
      (JObj [("servers", JArr [JObj [("id", JNum (num 1))];
                               JObj [("id", JNum (num 2))]]);
             ("pagination", JObj [("total", JNum (num 2))])]) /\
  promise (exec (getAllServers decimal_StringToNumber decimal_NumberToString
                   (panel_unreachable "timeout of 1000ms exceeded"))
                stored_credentials)
  = Rejected (RMessage "timeout of 1000ms exceeded").
Proof.
  split.
  - pose proof (getAllServers_unwraps decimal_StringToNumber
                  decimal_NumberToString (panel_answers two_servers)
                  stored_credentials) as H.
    cbv zeta in H. destruct H as (_ & H & _).
    apply (H (JObj [("data", two_servers)]) two_servers
             [JObj [("object", JStr "server");
                    ("attributes", JObj [("id", JNum (num 1))])];
              JObj [("object", JStr "server");
                    ("attributes", JObj [("id", JNum (num 2))])]]
             (JObj [("pagination", JObj [("total", JNum (num 2))])]));
      try reflexivity.
    repeat constructor.
  - pose proof (getAllServers_unwraps decimal_StringToNumber
                  decimal_NumberToString
                  (panel_unreachable "timeout of 1000ms exceeded")
                  stored_credentials) as H.
    cbv zeta in H. destruct H as (_ & _ & H).
    apply H. reflexivity.
Defined.


(** The trace of that call, written out. *)
Lemma getAllDatabases_undefined_trace :
  trace (exec (invoke decimal_StringToNumber decimal_NumberToString
                 (panel_answers JNull) (GetAllDatabases JUndefined))
              stored_credentials)
  = [EvReject (RMessage "Internal ID must be a number");
     EvHttp admin_getRequest_site
       (mkRequest GET
          (JStr "https://panel.example/api/application/servers/undefined/databases")
          None
          (JObj [("headers",
                  JObj [("Authorization", JStr "Bearer secret");
                        ("Content-Type", JStr "application/json");
                        ("Accept", JStr "Application/vnd.pterodactyl.v1+json")])]));
     EvReject RTypeError].
Proof. reflexivity. Qed.


(** C10 at a host with two trailing slashes and at one with none. *)
Lemma setApiKey_stores_clean_host_witness :
  cleanHost "https://panel.example//" = "https://panel.example/"%string /\
  (ends_with_slash "https://panel.example" = false /\
   cleanHost "https://panel.example" = "https://panel.example"%string) /\
  ADMIN_HOST
    (env (exec (setApiKey decimal_StringToNumber decimal_NumberToString
                  (panel_answers JNull) (JStr "https://panel.example//")
                  (JStr "secret")) no_credentials))
  = Some "https://panel.example/"%string.
Proof.
  split; [|split; [split; [reflexivity|]|]].
  - destruct (setApiKey_stores_clean_host decimal_StringToNumber
                decimal_NumberToString (panel_answers JNull)
                "https://panel.example//" (JStr "secret") no_credentials)
      as (_ & H & _).
    apply H. reflexivity.
  - destruct (setApiKey_stores_clean_host decimal_StringToNumber
                decimal_NumberToString (panel_answers JNull)
                "https://panel.example" (JStr "secret") no_credentials)
      as (_ & _ & H & _).
    apply H. reflexivity.
  - destruct (setApiKey_stores_clean_host decimal_StringToNumber
                decimal_NumberToString (panel_answers JNull)
                "https://panel.example//" (JStr "secret") no_credentials)
      as (H & _).
    exact H.
Defined.

(** * Closed instances of the further properties *)

Lemma helper_rejection_propagates_witness :
  promise (exec (invoke decimal_StringToNumber decimal_NumberToString
                   (panel_unreachable "Network Error")
                   (GetDatabase (JNum (num 1)) (JNum (num 2))))
                stored_credentials)
  = Rejected (RMessage "Network Error").
Proof.
  destruct (helper_rejection_propagates decimal_StringToNumber
              decimal_NumberToString (panel_unreachable "Network Error")
              (GetDatabase (JNum (num 1)) (JNum (num 2)))
              stored_credentials eq_refl)
    as (site & call & _ & H).
  apply (H "Network Error"); [reflexivity|discriminate].
Defined.

Lemma server_actions_announce_witness :
  isNaN decimal_StringToNumber decimal_NumberToString (JNum (num 5)) = false /\
  promise (exec (suspendServer decimal_StringToNumber decimal_NumberToString
                   (panel_status 204) (JNum (num 5))) stored_credentials)
  = Resolved (JStr "Successfully suspended the server") /\
  promise (exec (deleteServer decimal_StringToNumber decimal_NumberToString
                   (panel_status 404) (JNum (num 5))) stored_credentials)
  = Rejected (RMessage "404 Not found, check your host is correct").
Proof.
  split; [reflexivity|].
  split.
  - pose proof (server_actions_announce decimal_StringToNumber
                  decimal_NumberToString (panel_status 204) (JNum (num 5))
                  stored_credentials eq_refl) as H.
    cbv zeta in H.
    destruct H as ((site & call & _ & _ & _ & _ & H & _) & _).
    apply (H (JObj [("data", JNull)])). reflexivity.
  - pose proof (server_actions_announce decimal_StringToNumber
                  decimal_NumberToString (panel_status 404) (JNum (num 5))
                  stored_credentials eq_refl) as H.
    cbv zeta in H.
    destruct H as (_ & _ & _ & _ & (site & call & _ & _ & _ & _ & _ & H)).
    apply H. reflexivity.
Defined.

Lemma resource_functions_present_attributes_witness :
  promise (exec (invoke decimal_StringToNumber decimal_NumberToString
                   (panel_answers one_database)
                   (GetDatabase (JNum (num 1)) (JNum (num 2))))
                stored_credentials)
  = Resolved (JObj [("id", JNum (num 2))]) /\
  promise (exec (invoke decimal_StringToNumber decimal_NumberToString
                   (panel_answers (JObj []))
                   (GetDatabase (JNum (num 1)) (JNum (num 2))))
                stored_credentials)
  = Resolved JUndefined.
Proof.
  split.
  - destruct (resource_functions_present_attributes decimal_StringToNumber
                decimal_NumberToString (panel_answers one_database)
                (GetDatabase (JNum (num 1)) (JNum (num 2)))
                stored_credentials (fun a => a) eq_refl eq_refl)
      as (site & call & _ & H).
    apply (H one_database); reflexivity.
  - destruct (resource_functions_present_attributes decimal_StringToNumber
                decimal_NumberToString (panel_answers (JObj []))
                (GetDatabase (JNum (num 1)) (JNum (num 2)))
                stored_credentials (fun a => a) eq_refl eq_refl)
      as (site & call & _ & H).
    apply (H (JObj [])); reflexivity.
Defined.

Lemma resource_functions_reject_empty_body_witness :
  promise (exec (invoke decimal_StringToNumber decimal_NumberToString
                   (panel_status 204)
                   (UpdateServerDetails (JNum (num 1)) (JStr "lobby")
                      (JNum (num 2)) JUndefined JUndefined))
                stored_credentials)
  = Rejected RTypeError.
Proof.
  destruct (resource_functions_reject_empty_body decimal_StringToNumber
              decimal_NumberToString (panel_status 204)
              (UpdateServerDetails (JNum (num 1)) (JStr "lobby")
                 (JNum (num 2)) JUndefined JUndefined)
              stored_credentials (fun a => JObj [("server", a)])
              eq_refl eq_refl eq_refl)
    as (site & call & _ & H).
  apply (H JNull); reflexivity.
Defined.

Lemma createDatabase_replaces_403_witness :
  promise (exec (createDatabase decimal_StringToNumber decimal_NumberToString
                   (panel_status 403) (JNum (num 1)) (JStr "players")
                   (JNum (num 3)) (JStr "%")) stored_credentials)
  = Rejected (RMessage createDatabase_403).
Proof.
  destruct (createDatabase_replaces_403 decimal_StringToNumber
              decimal_NumberToString (panel_status 403) (JNum (num 1))
              (JStr "players") (JNum (num 3)) (JStr "%") stored_credentials
              eq_refl)
    as (call & _ & _ & _ & H).
  apply (H (mkResponse 403 JNull)); reflexivity.
Defined.

Lemma createDatabase_leaves_promise_pending_witness :
  promise (exec (createDatabase decimal_StringToNumber decimal_NumberToString
                   (panel_status 204) (JNum (num 1)) (JStr "players")
                   (JNum (num 3)) (JStr "%")) stored_credentials)
  = Pending.
Proof.
  destruct (createDatabase_leaves_promise_pending decimal_StringToNumber
              decimal_NumberToString (panel_status 204) (JNum (num 1))
              (JStr "players") (JNum (num 3)) (JStr "%") stored_credentials
              eq_refl)
    as (call & _ & H).
  apply (H JNull); reflexivity.
Defined.

Lemma getAllDatabases_unwraps_witness :
  promise (exec (getAllDatabases decimal_StringToNumber
                   decimal_NumberToString
                   (panel_answers (JObj [("data", JArr [one_database])]))
                   (JNum (num 1))) stored_credentials)
  = Resolved (JObj [("databases", JArr [JObj [("id", JNum (num 2))]])]).
Proof.
  destruct (getAllDatabases_unwraps decimal_StringToNumber
              decimal_NumberToString
              (panel_answers (JObj [("data", JArr [one_database])]))
              (JNum (num 1)) stored_credentials eq_refl)
    as (call & _ & _ & H & _).
  apply (H (JObj [("data", JArr [one_database])]) [one_database]);
    try reflexivity.
  repeat constructor.
Defined.

Lemma console_output_is_the_io_warning_witness :
  console_logs
    (trace (exec (invoke decimal_StringToNumber decimal_NumberToString
                    (panel_status 204) (SuspendServer JUndefined))
                 stored_credentials))
  = [].
Proof.
  destruct (console_output_is_the_io_warning decimal_StringToNumber
              decimal_NumberToString (panel_status 204)) as (H & _).
  apply H. reflexivity.
Defined.

Lemma createDatabase_accepts_witness :
  (exists site call rest,
      trace (exec (createDatabase decimal_StringToNumber
                     decimal_NumberToString (panel_status 204)
                     (JNum (num 1)) (JStr "players") (JNum (num 3))
                     (JStr "%")) stored_credentials)
      = EvHttp site call :: rest) /\
  ~ (exists site call rest,
        trace (exec (createDatabase decimal_StringToNumber
                       decimal_NumberToString (panel_status 204)
                       (JNum (num 1)) (JStr "players") (JNum (num 0))
                       (JStr "%")) stored_credentials)
        = EvHttp site call :: rest).
Proof.
  split.
  - apply (proj2 (createDatabase_accepts decimal_StringToNumber
                    decimal_NumberToString (panel_status 204)
                    (JNum (num 1)) (JStr "players") (JNum (num 3))
                    (JStr "%") stored_credentials)).
    split; [reflexivity|].
    split; [exists "players"%string; split; [reflexivity|discriminate]|].
    split; [exists (num 3); split; reflexivity|].
    exists "%"%string. split; [reflexivity|discriminate].
  - intros H.
    apply (proj1 (createDatabase_accepts decimal_StringToNumber
                    decimal_NumberToString (panel_status 204)
                    (JNum (num 1)) (JStr "players") (JNum (num 0))
                    (JStr "%") stored_credentials)) in H.
    destruct H as (_ & _ & (n & Hn & Ht) & _).
    injection Hn as <-. discriminate Ht.
Defined.

Lemma createServer_required_arguments_suffice_witness :
  exists call rest,
    trace
      (exec (createServer decimal_StringToNumber decimal_NumberToString
               (panel_status 204)
               (JStr "lobby") (JStr "") (JNum (num 1)) (JNum (num 15))
               (JStr "java -jar server.jar") (JStr "quay.io/pterodactyl/core:java")
               (JNum (num 7)) (JBool true) (JObj []) (JNum (num 1024))
               (JNum (num 4096))
               JUndefined JUndefined JUndefined JUndefined JUndefined
               JUndefined JUndefined JUndefined JUndefined)
            stored_credentials)
    = EvHttp admin_postRequest_site call :: rest.
Proof.
  apply (createServer_required_arguments_suffice decimal_StringToNumber
           decimal_NumberToString (panel_status 204));
    reflexivity.
Defined.


Lemma build_update_drops_all_zero_limits_witness :
  exists call props,
    http_calls
      (trace (exec (updateServerBuildConfiguration decimal_StringToNumber
                      decimal_NumberToString (panel_status 204)
                      (JNum (num 1)) (JNum (num 7)) JUndefined JUndefined
                      JUndefined JUndefined (JNum (num 0)) JUndefined
                      JUndefined JUndefined JUndefined JUndefined)
                   stored_credentials))
    = [(admin_patchRequest_site, call)] /\
    req_body call = Some (JObj props) /\
    lookup "limits" props = None.
Proof.
  apply (build_update_drops_all_zero_limits decimal_StringToNumber
           decimal_NumberToString (panel_status 204));
    reflexivity.
Defined.

Lemma setApiKey_reports_errors_witness :
  promise (exec (setApiKey decimal_StringToNumber decimal_NumberToString
                   (panel_fails "Request failed with status code 403"
                                (JNum (num 403)))
                   (JStr "https://panel.example") (JStr "wrong"))
                no_credentials)
  = Resolved
      (JObj [("loggedIn", JBool false);
             ("message",
              JStr "403 Forbidden, please check your API key is valid")]) /\
  promise (exec (setApiKey decimal_StringToNumber decimal_NumberToString
                   (panel_fails "getaddrinfo ENOTFOUND" JUndefined)
                   (JStr "https://panel.example") (JStr "secret"))
                no_credentials)
  = Resolved (JObj [("loggedIn", JBool false);
                    ("message", JStr "getaddrinfo ENOTFOUND")]).
Proof.
  split.
  - destruct (setApiKey_reports_errors decimal_StringToNumber
                decimal_NumberToString
                (panel_fails "Request failed with status code 403"
                             (JNum (num 403)))
                "https://panel.example" (JStr "wrong") no_credentials)
      as (call & _ & H & _).
    apply (H "Request failed with status code 403"%string). reflexivity.
  - destruct (setApiKey_reports_errors decimal_StringToNumber
                decimal_NumberToString
                (panel_fails "getaddrinfo ENOTFOUND" JUndefined)
                "https://panel.example" (JStr "secret") no_credentials)
      as (call & _ & _ & H & _).
    apply (H "getaddrinfo ENOTFOUND"%string JUndefined); reflexivity.
Defined.

Lemma endpoint_promises_settle_witness :
  promise (exec (invoke decimal_StringToNumber decimal_NumberToString
                   (panel_answers (JStr "<!DOCTYPE html>")) GetAllServers)
                stored_credentials)
  <> Pending.
Proof.
  apply (endpoint_promises_settle decimal_StringToNumber
           decimal_NumberToString (panel_answers (JStr "<!DOCTYPE html>"))
           GetAllServers stored_credentials).
  reflexivity.
Defined.
